(** * LLDB formatters for [smol_str::SmolStr] and [smallvec::SmallVec]

    A shallow embedding of [rust_bonus_types.py]: the two summary
    providers and the two synthetic-children providers, over a model of
    the part of the LLDB scripting interface they call. *)

From Stdlib Require Import ZArith Lia Bool List String Ascii.
From Stdlib.Strings Require Import Byte.
From Stdlib Require Import DecimalString HexadecimalString.
Import ListNotations.

Set Warnings "-register-all".

#[local] Open Scope string_scope.
#[local] Open Scope Z_scope.

(** ** Python values and control flow *)

(** Outcome of a Python call that may raise. *)
Inductive py (A : Type) : Type :=
| Returned (a : A)
| Raised.
Arguments Returned {A} a.
Arguments Raised {A}.

(** [try: body / except Exception: handler]. *)
Definition try_except {A : Type} (body handler : py A) : py A :=
  match body with
  | Returned a => Returned a
  | Raised => handler
  end.

Definition py_bind {A B : Type} (c : py A) (k : A -> py B) : py B :=
  match c with
  | Returned a => k a
  | Raised => Raised
  end.

Notation "x <- c ;; k" := (py_bind c (fun x => k))
  (at level 61, c at next level, right associativity).

(** The one-character string holding a double quote. *)
Definition dquote : string := String "034"%char EmptyString.

(** ["%d" % n] and ["%x" % n]. *)
Definition fmt_d (n : Z) : string :=
  DecimalString.NilZero.string_of_int (Z.to_int n).

Definition fmt_x (n : Z) : string :=
  HexadecimalString.NilZero.string_of_int (Z.to_hex_int n).

(** [c in chars], for a character and a string. *)
Fixpoint char_in (c : ascii) (chars : string) : bool :=
  match chars with
  | EmptyString => false
  | String c' rest => Ascii.eqb c c' || char_in c rest
  end.

(** [s.lstrip(chars)]: the leading characters that are in [chars] go. *)
Fixpoint lstrip (chars s : string) : string :=
  match s with
  | EmptyString => EmptyString
  | String c rest => if char_in c chars then lstrip chars rest else s
  end.

(** [s.rstrip(chars)]: the trailing characters that are in [chars] go. *)
Fixpoint rstrip (chars s : string) : string :=
  match s with
  | EmptyString => EmptyString
  | String c rest =>
      match rstrip chars rest with
      | EmptyString =>
          if char_in c chars then EmptyString else String c EmptyString
      | kept => String c kept
      end
  end.

(** The built-in [int] on strings, which raises on a string it cannot
    read as an integer. *)
Class Builtins : Type := {
  py_int : string -> py Z
}.

(** ** The LLDB scripting interface *)

(** Unsigned 64-bit results of the interface ([uint64_t], [addr_t]). *)
Definition uint64 (z : Z) : Z := z mod 2 ^ 64.

Inductive BasicType : Type :=
| eBasicTypeChar.

Inductive SBType : Type :=
| SBType_invalid
| SBType_basic (kind : BasicType)
| SBType_named (name : string) (byte_size : Z) (template_arguments : list SBType)
| SBType_array (element : SBType) (count : Z).

Module SBTypeAPI.

Definition IsValid (t : SBType) : bool :=
  match t with
  | SBType_invalid => false
  | _ => true
  end.

Fixpoint GetByteSize (t : SBType) : Z :=
  match t with
  | SBType_invalid => 0
  | SBType_basic eBasicTypeChar => 1
  | SBType_named _ sz _ => uint64 sz
  | SBType_array e n => uint64 (GetByteSize e * n)
  end.

Definition GetTemplateArgumentType (t : SBType) (idx : nat) : SBType :=
  match t with
  | SBType_named _ _ args => nth idx args SBType_invalid
  | _ => SBType_invalid
  end.

Definition GetArrayType (t : SBType) (n : Z) : SBType :=
  if IsValid t then SBType_array t n else SBType_invalid.

End SBTypeAPI.

(** A value of the inspected program, in its raw (non-synthetic) layout:
    a tree of named children, each with a scalar reading and a load
    address. *)
Inductive SBValue : Type :=
| MkSBValue (valid : bool) (scalar : Z) (load_address : Z) (type : SBType)
            (children : list (string * SBValue)).

Definition SBValue_invalid : SBValue :=
  MkSBValue false 0 0 SBType_invalid [].

Definition LLDB_INVALID_ADDRESS : Z := 2 ^ 64 - 1.

Definition IsValid (v : SBValue) : bool :=
  match v with MkSBValue b _ _ _ _ => b end.

Definition GetValueAsUnsigned (v : SBValue) : Z :=
  match v with
  | MkSBValue true z _ _ _ => uint64 z
  | MkSBValue false _ _ _ _ => 0
  end.

Definition GetLoadAddress (v : SBValue) : Z :=
  match v with
  | MkSBValue true _ a _ _ => uint64 a
  | MkSBValue false _ _ _ _ => LLDB_INVALID_ADDRESS
  end.

Definition GetType (v : SBValue) : SBType :=
  match v with
  | MkSBValue true _ _ t _ => t
  | MkSBValue false _ _ _ _ => SBType_invalid
  end.

Fixpoint lookup_child (name : string) (cs : list (string * SBValue)) : SBValue :=
  match cs with
  | [] => SBValue_invalid
  | (n, c) :: rest => if String.eqb n name then c else lookup_child name rest
  end.

Definition GetChildMemberWithName (v : SBValue) (name : string) : SBValue :=
  match v with
  | MkSBValue true _ _ _ cs => lookup_child name cs
  | MkSBValue false _ _ _ _ => SBValue_invalid
  end.

Definition GetChildAtIndex (v : SBValue) (idx : nat) : SBValue :=
  match v with
  | MkSBValue true _ _ _ cs => nth idx (map snd cs) SBValue_invalid
  | MkSBValue false _ _ _ _ => SBValue_invalid
  end.

(** The value handles the formatters receive are modelled by their raw
    layout, so the non-synthetic view of a handle is the handle. *)
Definition GetNonSyntheticValue (v : SBValue) : SBValue := v.

(** The inspected process: its memory, read-only, and the log of the
    read requests made so far (most recent first), served or not.  A
    read that fails reports it through the error flag, here [None]. *)
Record SBProcess : Type := MkSBProcess {
  memory : Z -> Z -> option (list byte);
  reads : list (Z * Z)
}.

(** The requests that the binding of [ReadMemory] accepts: an address
    that fits the unsigned 64-bit [addr_t] and a positive size that fits
    a signed 64-bit integer.  Python integers do not wrap, so a caller
    can pass others, and the call then raises. *)
Definition read_request_in_range (addr len : Z) : bool :=
  (0 <=? addr) && (addr <? 2 ^ 64) && (0 <? len) && (len <? 2 ^ 63).

Definition ReadMemory (process : SBProcess) (addr len : Z)
  : py (option (list byte)) * SBProcess :=
  (if read_request_in_range addr len
   then Returned (memory process addr len)
   else Raised,
   MkSBProcess (memory process) ((addr, len) :: reads process)).

(** What the module takes from its environment: the interpreter version
    flag, [bytes.decode("utf-8", "replace")], and the two constructors of
    synthetic values, which run inside [try] blocks. *)
Class Host : Type := {
  PY3 : bool;
  bytes_decode : list byte -> py string;
  CreateValueFromExpression : SBValue -> string -> string -> py SBValue;
  CreateValueFromAddress : SBValue -> string -> Z -> SBType -> py SBValue
}.

(** [GetTarget().GetBasicType(lldb.eBasicTypeChar)]. *)
Definition char_type : SBType := SBType_basic eBasicTypeChar.

(** ** [SmolStrSummaryProvider] *)

Section SmolStrSummary.
Context `{Host}.

(** What a branch returns once its read has returned: the bytes
    decoded and quoted on success, the empty quoted string otherwise. *)
Definition quoted (data : option (list byte)) : string :=
  match data with
  | Some data =>
      if PY3 then
        match bytes_decode data with
        | Returned s => dquote ++ s ++ dquote
        | Raised => dquote ++ dquote
        end
      else dquote ++ string_of_list_byte data ++ dquote
  | None => dquote ++ dquote
  end.

(** The reading tail shared by the three branches.  No [try] surrounds
    the call of [ReadMemory]: when it raises, so does the provider. *)
Definition read_quoted (process : SBProcess) (addr len : Z)
  : py string * SBProcess :=
  let '(data, process) := ReadMemory process addr len in
  (data <- data ;; Returned (quoted data), process).

Definition SmolStrSummaryProvider (valobj : SBValue) (process : SBProcess)
  : py string * SBProcess :=
  let valobj := GetNonSyntheticValue valobj in
  let repr_enum := GetChildAtIndex valobj 0 in
  let variants := GetChildMemberWithName repr_enum "$variants$" in
  if negb (IsValid variants) then (Returned (dquote ++ dquote), process) else
  let variant24 := GetChildMemberWithName variants "$variant$24" in
  if negb (IsValid variant24) then (Returned (dquote ++ dquote), process) else
  let discr_field := GetChildMemberWithName variant24 "$discr$" in
  if negb (IsValid discr_field) then (Returned (dquote ++ dquote), process) else
  let discriminant := GetValueAsUnsigned discr_field in
  if discriminant <=? 23 then
    let length := discriminant in
    if length =? 0 then (Returned (dquote ++ dquote), process) else
    let variant0 := GetChildMemberWithName variants "$variant$" in
    if negb (IsValid variant0) then (Returned (dquote ++ dquote), process) else
    let value := GetChildMemberWithName variant0 "value" in
    if negb (IsValid value) then (Returned (dquote ++ dquote), process) else
    let buf := GetChildMemberWithName value "buf" in
    if negb (IsValid buf) then (Returned (dquote ++ dquote), process) else
    read_quoted process (GetLoadAddress buf) length
  else if discriminant =? 24 then
    let value := GetChildMemberWithName variant24 "value" in
    if negb (IsValid value) then (Returned (dquote ++ dquote), process) else
    let str_ref := GetChildMemberWithName value "__0" in
    if negb (IsValid str_ref) then (Returned (dquote ++ dquote), process) else
    let data_ptr := GetChildMemberWithName str_ref "data_ptr" in
    let length_field := GetChildMemberWithName str_ref "length" in
    if negb (IsValid data_ptr) || negb (IsValid length_field)
    then (Returned (dquote ++ dquote), process) else
    let length := GetValueAsUnsigned length_field in
    if length =? 0 then (Returned (dquote ++ dquote), process) else
    let ptr := GetValueAsUnsigned data_ptr in
    read_quoted process ptr length
  else
    let variant25 := GetChildMemberWithName variants "$variant$25" in
    if negb (IsValid variant25) then (Returned (dquote ++ dquote), process) else
    let value := GetChildMemberWithName variant25 "value" in
    if negb (IsValid value) then (Returned (dquote ++ dquote), process) else
    let inner := GetChildMemberWithName value "__0" in
    if negb (IsValid inner) then (Returned (dquote ++ dquote), process) else
    let ptr_field := GetChildMemberWithName inner "ptr" in
    if negb (IsValid ptr_field) then (Returned (dquote ++ dquote), process) else
    let pointer := GetChildMemberWithName ptr_field "pointer" in
    if negb (IsValid pointer) then (Returned (dquote ++ dquote), process) else
    let data_ptr := GetChildMemberWithName pointer "data_ptr" in
    let length_field := GetChildMemberWithName pointer "length" in
    if negb (IsValid data_ptr) || negb (IsValid length_field)
    then (Returned (dquote ++ dquote), process) else
    let length := GetValueAsUnsigned length_field in
    if length =? 0 then (Returned (dquote ++ dquote), process) else
    let ptr := GetValueAsUnsigned data_ptr in
    let arc_header_size := 16 in
    let string_data_ptr := ptr + arc_header_size in
    read_quoted process string_data_ptr length.

End SmolStrSummary.

(** ** [SmolStrSyntheticProvider] *)

Module SmolStrSyntheticProvider.

(** The instance attributes. *)
Record t : Type := mk {
  valobj : SBValue;
  variant_name : string;
  length : Z;
  content : string;
  pointer : Z;
  content_address : Z
}.

Definition set_variant_name (self : t) (s : string) : t :=
  mk (valobj self) s (length self) (content self) (pointer self)
     (content_address self).

Definition set_length (self : t) (n : Z) : t :=
  mk (valobj self) (variant_name self) n (content self) (pointer self)
     (content_address self).

Definition set_content (self : t) (s : string) : t :=
  mk (valobj self) (variant_name self) (length self) s (pointer self)
     (content_address self).

Definition set_pointer (self : t) (p : Z) : t :=
  mk (valobj self) (variant_name self) (length self) (content self) p
     (content_address self).

Definition set_content_address (self : t) (a : Z) : t :=
  mk (valobj self) (variant_name self) (length self) (content self)
     (pointer self) a.

(** [self.variant_name in ("Static", "Heap")]. *)
Definition is_static_or_heap (self : t) : bool :=
  String.eqb (variant_name self) "Static"
  || String.eqb (variant_name self) "Heap".

Definition num_children (self : t) : Z :=
  if is_static_or_heap self then 4 else 3.

Definition get_child_index (self : t) (name : string) : Z :=
  if String.eqb name "variant" then 0
  else if String.eqb name "length" then 1
  else if String.eqb name "content" then 2
  else if String.eqb name "pointer" then 3
  else -1.

Definition has_children (self : t) : bool := true.

Section WithHost.
Context `{Host}.

Definition get_child_at_index (self : t) (index : Z) : py (option SBValue) :=
  if index <? 0 then Returned None else
  try_except
    (if index =? 0 then
       v <- CreateValueFromExpression (valobj self) "variant"
              ("(const char*)" ++ dquote ++ variant_name self ++ dquote) ;;
       Returned (Some v)
     else if index =? 1 then
       v <- CreateValueFromExpression (valobj self) "length"
              ("(unsigned long long)" ++ fmt_d (length self)) ;;
       Returned (Some v)
     else if index =? 2 then
       if negb (content_address self =? 0) && (length self >? 0) then
         let char_array_type :=
           SBTypeAPI.GetArrayType char_type (length self) in
         v <- CreateValueFromAddress (valobj self) "content"
                (content_address self) char_array_type ;;
         Returned (Some v)
       else
         v <- CreateValueFromExpression (valobj self) "content"
                ("(const char*)" ++ dquote ++ dquote) ;;
         Returned (Some v)
     else if (index =? 3) && is_static_or_heap self then
       v <- CreateValueFromExpression (valobj self) "pointer"
              ("(void*)0x" ++ fmt_x (pointer self)) ;;
       Returned (Some v)
     else Returned None)
    (Returned None).

(** What a read that returned leaves in the attributes: on success the
    bytes, decoded, become [self.content]. *)
Definition store_content (self : t) (data : option (list byte)) : t :=
  match data with
  | Some data =>
      if PY3 then
        match bytes_decode data with
        | Returned s => set_content self s
        | Raised => set_content self EmptyString
        end
      else set_content self (string_of_list_byte data)
  | None => self
  end.

(** The tail shared by the three branches of [update]; a raising
    [ReadMemory] leaves the [try]. *)
Definition store_read (self : t) (process : SBProcess) (addr len : Z)
  : py t * SBProcess :=
  let '(data, process) := ReadMemory process addr len in
  (data <- data ;; Returned (store_content self data), process).

(** The body of the [try] of [update], on the attributes as the first
    five assignments leave them; [Returned] is a [return] or the end of
    the body. *)
Definition update_try (self : t) (process : SBProcess)
  : py t * SBProcess :=
  let valobj := GetNonSyntheticValue (valobj self) in
  let repr_enum := GetChildAtIndex valobj 0 in
  let variants := GetChildMemberWithName repr_enum "$variants$" in
  if negb (IsValid variants) then (Returned self, process) else
  let variant24 := GetChildMemberWithName variants "$variant$24" in
  if negb (IsValid variant24) then (Returned self, process) else
  let discr_field := GetChildMemberWithName variant24 "$discr$" in
  if negb (IsValid discr_field) then (Returned self, process) else
  let discriminant := GetValueAsUnsigned discr_field in
  if discriminant <=? 23 then
    let self := set_variant_name self "Inline" in
    let self := set_length self discriminant in
    if length self =? 0 then (Returned (set_content self EmptyString), process) else
    let variant0 := GetChildMemberWithName variants "$variant$" in
    if negb (IsValid variant0) then (Returned self, process) else
    let value := GetChildMemberWithName variant0 "value" in
    if negb (IsValid value) then (Returned self, process) else
    let buf := GetChildMemberWithName value "buf" in
    if negb (IsValid buf) then (Returned self, process) else
    let self := set_content_address self (GetLoadAddress buf) in
    store_read self process (content_address self) (length self)
  else if discriminant =? 24 then
    let self := set_variant_name self "Static" in
    let value := GetChildMemberWithName variant24 "value" in
    if negb (IsValid value) then (Returned self, process) else
    let str_ref := GetChildMemberWithName value "__0" in
    if negb (IsValid str_ref) then (Returned self, process) else
    let data_ptr := GetChildMemberWithName str_ref "data_ptr" in
    let length_field := GetChildMemberWithName str_ref "length" in
    if negb (IsValid data_ptr) || negb (IsValid length_field)
    then (Returned self, process) else
    let self := set_length self (GetValueAsUnsigned length_field) in
    let self := set_pointer self (GetValueAsUnsigned data_ptr) in
    let self := set_content_address self (pointer self) in
    if length self =? 0 then (Returned (set_content self EmptyString), process) else
    store_read self process (pointer self) (length self)
  else
    let self := set_variant_name self "Heap" in
    let variant25 := GetChildMemberWithName variants "$variant$25" in
    if negb (IsValid variant25) then (Returned self, process) else
    let value := GetChildMemberWithName variant25 "value" in
    if negb (IsValid value) then (Returned self, process) else
    let inner := GetChildMemberWithName value "__0" in
    if negb (IsValid inner) then (Returned self, process) else
    let ptr_field := GetChildMemberWithName inner "ptr" in
    if negb (IsValid ptr_field) then (Returned self, process) else
    let pointer_field := GetChildMemberWithName ptr_field "pointer" in
    if negb (IsValid pointer_field) then (Returned self, process) else
    let data_ptr := GetChildMemberWithName pointer_field "data_ptr" in
    let length_field := GetChildMemberWithName pointer_field "length" in
    if negb (IsValid data_ptr) || negb (IsValid length_field)
    then (Returned self, process) else
    let self := set_length self (GetValueAsUnsigned length_field) in
    let self := set_pointer self (GetValueAsUnsigned data_ptr) in
    if length self =? 0 then (Returned (set_content self EmptyString), process) else
    let arc_header_size := 16 in
    let string_data_ptr := pointer self + arc_header_size in
    let self := set_content_address self string_data_ptr in
    store_read self process string_data_ptr (length self).

(** [update]: the attributes are emptied, the body of the [try] runs,
    and the handler empties the attributes again when the body raised. *)
Definition update (self : t) (process : SBProcess) : t * SBProcess :=
  let self := mk (valobj self) EmptyString 0 EmptyString 0 0 in
  let '(outcome, process) := update_try self process in
  match outcome with
  | Returned self => (self, process)
  | Raised => (mk (valobj self) EmptyString 0 EmptyString 0 0, process)
  end.

(** [__init__]: the attributes start empty and [update] runs once. *)
Definition init (v : SBValue) (process : SBProcess) : t * SBProcess :=
  update (mk v EmptyString 0 EmptyString 0 0) process.

End WithHost.

End SmolStrSyntheticProvider.

(** ** [SmallVecSummaryProvider] *)

Definition SmallVecSummaryProvider (valobj : SBValue) : string :=
  let valobj := GetNonSyntheticValue valobj in
  let len_field := GetChildMemberWithName valobj "len" in
  if negb (IsValid len_field) then "size=?" else
  let len_inner := GetChildMemberWithName len_field "__0" in
  if negb (IsValid len_inner) then "size=?" else
  let len_value := GetValueAsUnsigned len_inner in
  let actual_length := Z.shiftr len_value 1 in
  "size=" ++ fmt_d actual_length.

(** ** [SmallVecSyntheticProvider] *)

Module SmallVecSyntheticProvider.

(** The instance attributes; [element_type] is [None] until [update]
    has asked for the template argument. *)
Record t : Type := mk {
  valobj : SBValue;
  length : Z;
  is_heap : bool;
  heap_ptr : Z;
  inline_data_address : Z;
  element_size : Z;
  element_type : option SBType
}.

Definition set_length (self : t) (n : Z) : t :=
  mk (valobj self) n (is_heap self) (heap_ptr self)
     (inline_data_address self) (element_size self) (element_type self).

Definition set_is_heap (self : t) (b : bool) : t :=
  mk (valobj self) (length self) b (heap_ptr self)
     (inline_data_address self) (element_size self) (element_type self).

Definition set_heap_ptr (self : t) (p : Z) : t :=
  mk (valobj self) (length self) (is_heap self) p
     (inline_data_address self) (element_size self) (element_type self).

Definition set_inline_data_address (self : t) (a : Z) : t :=
  mk (valobj self) (length self) (is_heap self) (heap_ptr self)
     a (element_size self) (element_type self).

Definition set_element_size (self : t) (n : Z) : t :=
  mk (valobj self) (length self) (is_heap self) (heap_ptr self)
     (inline_data_address self) n (element_type self).

Definition set_element_type (self : t) (ty : SBType) : t :=
  mk (valobj self) (length self) (is_heap self) (heap_ptr self)
     (inline_data_address self) (element_size self) (Some ty).

Definition num_children (self : t) : Z := length self.

Section WithBuiltins.
Context `{Builtins}.

Definition get_child_index (self : t) (name : string) : py Z :=
  try_except
    (py_int (rstrip "]" (lstrip "[" name)))
    (Returned (-1)).

End WithBuiltins.

Definition has_children (self : t) : bool := length self >? 0.

(** [update].  As for the string provider, no statement of the [try]
    body raises on this interface, so the handler is never entered. *)
Definition update (self : t) : t :=
  let self := mk (valobj self) 0 false 0 0 0 None in
  let valobj := GetNonSyntheticValue (valobj self) in
  let len_field := GetChildMemberWithName valobj "len" in
  if negb (IsValid len_field) then self else
  let len_inner := GetChildMemberWithName len_field "__0" in
  if negb (IsValid len_inner) then self else
  let len_value := GetValueAsUnsigned len_inner in
  let self := set_is_heap self (Z.land len_value 1 =? 1) in
  let self := set_length self (Z.shiftr len_value 1) in
  let self :=
    set_element_type self
      (SBTypeAPI.GetTemplateArgumentType (GetType valobj) 0) in
  let ty := SBTypeAPI.GetTemplateArgumentType (GetType valobj) 0 in
  if negb (SBTypeAPI.IsValid ty) then set_length self 0 else
  let self := set_element_size self (SBTypeAPI.GetByteSize ty) in
  if element_size self =? 0 then set_length self 0 else
  let raw := GetChildMemberWithName valobj "raw" in
  if negb (IsValid raw) then set_length self 0 else
  if is_heap self then
    let heap := GetChildMemberWithName raw "heap" in
    if negb (IsValid heap) then set_length self 0 else
    let ptr_wrapper := GetChildMemberWithName heap "__0" in
    if negb (IsValid ptr_wrapper) then set_length self 0 else
    let pointer := GetChildMemberWithName ptr_wrapper "pointer" in
    if negb (IsValid pointer) then set_length self 0 else
    let self := set_heap_ptr self (GetValueAsUnsigned pointer) in
    if heap_ptr self =? 0 then set_length self 0 else
    self
  else
    let inline := GetChildMemberWithName raw "inline" in
    if negb (IsValid inline) then set_length self 0 else
    let value1 := GetChildMemberWithName inline "value" in
    if negb (IsValid value1) then set_length self 0 else
    let value2 := GetChildMemberWithName value1 "value" in
    if negb (IsValid value2) then set_length self 0 else
    let value_array := GetChildMemberWithName value2 "value" in
    if negb (IsValid value_array) then set_length self 0 else
    let self := set_inline_data_address self (GetLoadAddress value_array) in
    if inline_data_address self =? 0 then set_length self 0 else
    self.

(** [__init__]. *)
Definition init (v : SBValue) : t :=
  update (mk v 0 false 0 0 0 None).

Section WithHost.
Context `{Host}.

Definition get_child_at_index (self : t) (index : Z) : py (option SBValue) :=
  if (index <? 0) || (index >=? length self) then Returned None else
  match element_type self with
  | None => Returned None
  | Some ty =>
    if negb (SBTypeAPI.IsValid ty) then Returned None else
    if element_size self =? 0 then Returned None else
    try_except
      (if is_heap self then
         if heap_ptr self =? 0 then Returned None else
         let address := heap_ptr self + index * element_size self in
         element <- CreateValueFromAddress (valobj self)
                      ("[" ++ fmt_d index ++ "]") address ty ;;
         Returned (Some element)
       else
         if inline_data_address self =? 0 then Returned None else
         let address :=
           inline_data_address self + index * element_size self in
         element <- CreateValueFromAddress (valobj self)
                      ("[" ++ fmt_d index ++ "]") address ty ;;
         Returned (Some element))
      (Returned None)
  end.

End WithHost.

End SmallVecSyntheticProvider.

(** ** Readings of a value that the statements below refer to *)

(** The discriminant of a small string, when the three handles leading
    to it are valid. *)
Definition smolstr_discriminant (v : SBValue) : option Z :=
  let repr_enum := GetChildAtIndex (GetNonSyntheticValue v) 0 in
  let variants := GetChildMemberWithName repr_enum "$variants$" in
  let variant24 := GetChildMemberWithName variants "$variant$24" in
  let discr_field := GetChildMemberWithName variant24 "$discr$" in
  if IsValid variants && IsValid variant24 && IsValid discr_field
  then Some (GetValueAsUnsigned discr_field)
  else None.

(** Whether every handle that the decoding of a small string asks for,
    on the path its discriminant selects, is valid. *)
Definition smolstr_fields_resolved (v : SBValue) : bool :=
  let repr_enum := GetChildAtIndex (GetNonSyntheticValue v) 0 in
  let variants := GetChildMemberWithName repr_enum "$variants$" in
  let variant24 := GetChildMemberWithName variants "$variant$24" in
  let discr_field := GetChildMemberWithName variant24 "$discr$" in
  let discriminant := GetValueAsUnsigned discr_field in
  IsValid variants && IsValid variant24 && IsValid discr_field &&
  (if discriminant <=? 23 then
     (discriminant =? 0) ||
     (let variant0 := GetChildMemberWithName variants "$variant$" in
      let value := GetChildMemberWithName variant0 "value" in
      let buf := GetChildMemberWithName value "buf" in
      IsValid variant0 && IsValid value && IsValid buf)
   else if discriminant =? 24 then
     let value := GetChildMemberWithName variant24 "value" in
     let str_ref := GetChildMemberWithName value "__0" in
     IsValid value && IsValid str_ref &&
     IsValid (GetChildMemberWithName str_ref "data_ptr") &&
     IsValid (GetChildMemberWithName str_ref "length")
   else
     let variant25 := GetChildMemberWithName variants "$variant$25" in
     let value := GetChildMemberWithName variant25 "value" in
     let inner := GetChildMemberWithName value "__0" in
     let ptr_field := GetChildMemberWithName inner "ptr" in
     let pointer := GetChildMemberWithName ptr_field "pointer" in
     IsValid variant25 && IsValid value && IsValid inner &&
     IsValid ptr_field && IsValid pointer &&
     IsValid (GetChildMemberWithName pointer "data_ptr") &&
     IsValid (GetChildMemberWithName pointer "length")).

(** The memory read that the decoding of a small string requests, as
    address and size; [None] when a handle on the way is invalid or the
    length is 0. *)
Definition smolstr_read_request (v : SBValue) : option (Z * Z) :=
  let repr_enum := GetChildAtIndex (GetNonSyntheticValue v) 0 in
  let variants := GetChildMemberWithName repr_enum "$variants$" in
  if negb (IsValid variants) then None else
  let variant24 := GetChildMemberWithName variants "$variant$24" in
  if negb (IsValid variant24) then None else
  let discr_field := GetChildMemberWithName variant24 "$discr$" in
  if negb (IsValid discr_field) then None else
  let discriminant := GetValueAsUnsigned discr_field in
  if discriminant <=? 23 then
    if discriminant =? 0 then None else
    let variant0 := GetChildMemberWithName variants "$variant$" in
    if negb (IsValid variant0) then None else
    let value := GetChildMemberWithName variant0 "value" in
    if negb (IsValid value) then None else
    let buf := GetChildMemberWithName value "buf" in
    if negb (IsValid buf) then None else
    Some (GetLoadAddress buf, discriminant)
  else if discriminant =? 24 then
    let value := GetChildMemberWithName variant24 "value" in
    if negb (IsValid value) then None else
    let str_ref := GetChildMemberWithName value "__0" in
    if negb (IsValid str_ref) then None else
    let data_ptr := GetChildMemberWithName str_ref "data_ptr" in
    let length_field := GetChildMemberWithName str_ref "length" in
    if negb (IsValid data_ptr) || negb (IsValid length_field) then None else
    if GetValueAsUnsigned length_field =? 0 then None else
    Some (GetValueAsUnsigned data_ptr, GetValueAsUnsigned length_field)
  else
    let variant25 := GetChildMemberWithName variants "$variant$25" in
    if negb (IsValid variant25) then None else
    let value := GetChildMemberWithName variant25 "value" in
    if negb (IsValid value) then None else
    let inner := GetChildMemberWithName value "__0" in
    if negb (IsValid inner) then None else
    let ptr_field := GetChildMemberWithName inner "ptr" in
    if negb (IsValid ptr_field) then None else
    let pointer := GetChildMemberWithName ptr_field "pointer" in
    if negb (IsValid pointer) then None else
    let data_ptr := GetChildMemberWithName pointer "data_ptr" in
    let length_field := GetChildMemberWithName pointer "length" in
    if negb (IsValid data_ptr) || negb (IsValid length_field) then None else
    if GetValueAsUnsigned length_field =? 0 then None else
    Some (GetValueAsUnsigned data_ptr + 16, GetValueAsUnsigned length_field).

(** Whether the decoding of a small string makes a read request that
    [ReadMemory] refuses by raising. *)
Definition smolstr_read_raises (v : SBValue) : bool :=
  match smolstr_read_request v with
  | Some (addr, len) => negb (read_request_in_range addr len)
  | None => false
  end.

(** The raw length field of a small vector, when [len.__0] is there. *)
Definition smallvec_raw_length (v : SBValue) : option Z :=
  let len_field := GetChildMemberWithName (GetNonSyntheticValue v) "len" in
  let len_inner := GetChildMemberWithName len_field "__0" in
  if IsValid len_field && IsValid len_inner
  then Some (GetValueAsUnsigned len_inner)
  else None.

(** The declared element type of a small vector. *)
Definition smallvec_element_type (v : SBValue) : SBType :=
  SBTypeAPI.GetTemplateArgumentType (GetType (GetNonSyntheticValue v)) 0.

(** The address of the storage of a small vector, for either storage
    kind: the value of [raw.heap.__0.pointer], or the load address of
    [raw.inline.value.value.value]; [None] when a handle on the way is
    invalid. *)
Definition smallvec_storage_address (v : SBValue) (heap : bool) : option Z :=
  let raw := GetChildMemberWithName (GetNonSyntheticValue v) "raw" in
  if heap then
    let heap := GetChildMemberWithName raw "heap" in
    let ptr_wrapper := GetChildMemberWithName heap "__0" in
    let pointer := GetChildMemberWithName ptr_wrapper "pointer" in
    if IsValid raw && IsValid heap && IsValid ptr_wrapper && IsValid pointer
    then Some (GetValueAsUnsigned pointer)
    else None
  else
    let inline := GetChildMemberWithName raw "inline" in
    let value1 := GetChildMemberWithName inline "value" in
    let value2 := GetChildMemberWithName value1 "value" in
    let value_array := GetChildMemberWithName value2 "value" in
    if IsValid raw && IsValid inline && IsValid value1 && IsValid value2
       && IsValid value_array
    then Some (GetLoadAddress value_array)
    else None.

(** Whether every handle that the decoding of a small vector asks for is
    valid: the length field, the element type, and the storage of the
    kind the tag bit selects. *)
Definition smallvec_fields_resolved (v : SBValue) : bool :=
  match smallvec_raw_length v with
  | None => false
  | Some r =>
      SBTypeAPI.IsValid (smallvec_element_type v) &&
      match smallvec_storage_address v (Z.land r 1 =? 1) with
      | None => false
      | Some _ => true
      end
  end.

(** Whether a small vector of raw length [r] can be enumerated, read off
    the value: a valid element type of nonzero size and, for the storage
    kind of the tag bit, a storage address that resolves and is not 0. *)
Definition smallvec_storage_resolves (v : SBValue) (r : Z) : bool :=
  SBTypeAPI.IsValid (smallvec_element_type v)
  && negb (SBTypeAPI.GetByteSize (smallvec_element_type v) =? 0)
  && match smallvec_storage_address v (Z.land r 1 =? 1) with
     | Some a => negb (a =? 0)
     | None => false
     end.

(** The base address of a decoded vector: the attribute that the child
    accessor reads for the record's storage kind. *)
Definition base_address (self : SmallVecSyntheticProvider.t) : Z :=
  if SmallVecSyntheticProvider.is_heap self
  then SmallVecSyntheticProvider.heap_ptr self
  else SmallVecSyntheticProvider.inline_data_address self.

(** Whether a decoded vector can be enumerated: a valid element type of
    nonzero size and a nonzero base address. *)
Definition readable (self : SmallVecSyntheticProvider.t) : bool :=
  match SmallVecSyntheticProvider.element_type self with
  | None => false
  | Some ty =>
      SBTypeAPI.IsValid ty
      && negb (SmallVecSyntheticProvider.element_size self =? 0)
      && negb (base_address self =? 0)
  end.

(** Whether no character of [s] is in [chars]. *)
Fixpoint free_of (chars s : string) : bool :=
  match s with
  | EmptyString => true
  | String c rest => negb (char_in c chars) && free_of chars rest
  end.

(** The text that a read leaves in [self.content]: the decoding of the
    bytes, or nothing when the read failed or the decoding raised. *)
Definition decoded_text `{Host} (data : option (list byte)) : string :=
  match data with
  | Some data =>
      if PY3 then
        match bytes_decode data with
        | Returned s => s
        | Raised => EmptyString
        end
      else string_of_list_byte data
  | None => EmptyString
  end.

(** A host whose two constructors of synthetic values never raise. *)
Definition host_never_raises `{Host} : Prop :=
  (forall v name expr, CreateValueFromExpression v name expr <> Raised) /\
  (forall v name addr ty, CreateValueFromAddress v name addr ty <> Raised).

(** What a [try] around one constructor call hands back: the new value,
    or [None] from the handler. *)
Definition created (r : py SBValue) : py (option SBValue) :=
  match r with
  | Returned v => Returned (Some v)
  | Raised => Returned None
  end.

(** ** Sample host, process and values *)

Definition u64_type : SBType := SBType_named "u64" 8 [].
Definition u32_type : SBType := SBType_named "u32" 4 [].
Definition struct_type : SBType := SBType_named "struct" 0 [].
Definition smallvec_u32_type : SBType :=
  SBType_named "smallvec::SmallVec<[u32; 4]>" 24 [u32_type].

Definition struct (fields : list (string * SBValue)) : SBValue :=
  MkSBValue true 0 0 struct_type fields.

Definition u64 (z : Z) : SBValue := MkSBValue true z 0 u64_type [].

Definition located (addr : Z) : SBValue :=
  MkSBValue true 0 addr struct_type [].

(** A host on Python 3 whose decoder maps bytes to characters one to one
    and whose constructors answer with a value at the given address. *)
Definition sample_host : Host := {|
  PY3 := true;
  bytes_decode := fun data => Returned (string_of_list_byte data);
  CreateValueFromExpression := fun _ _ _ => Returned (u64 0);
  CreateValueFromAddress := fun _ _ addr ty => Returned (MkSBValue true 0 addr ty [])
|}.

(** An [int] that reads the decimal numerals of the standard library. *)
Definition sample_builtins : Builtins := {|
  py_int := fun s =>
    match DecimalString.NilZero.int_of_string s with
    | Some d => Returned (Z.of_int d)
    | None => Raised
    end
|}.

(** A host whose constructors always raise. *)
Definition raising_host : Host := {|
  PY3 := true;
  bytes_decode := fun _ => Raised;
  CreateValueFromExpression := fun _ _ _ => Raised;
  CreateValueFromAddress := fun _ _ _ _ => Raised
|}.

(** Memory holding [hello] at 28673 and [abc] at 4112. *)
Definition sample_process : SBProcess := {|
  memory := fun addr len =>
    if (addr =? 28673) && (len =? 5) then Some (list_byte_of_string "hello")
    else if (addr =? 4112) && (len =? 3) then Some (list_byte_of_string "abc")
    else None;
  reads := []
|}.

Definition smolstr (variants : list (string * SBValue)) : SBValue :=
  struct [("__0", struct [("$variants$", struct variants)])].

(** Inline, length 5, buffer at 28673. *)
Definition smolstr_inline_hello : SBValue :=
  smolstr [("$variant$24", struct [("$discr$", u64 5)]);
           ("$variant$", struct [("value", struct [("buf", located 28673)])])].

Definition str_ref (ptr len : Z) : SBValue :=
  struct [("data_ptr", u64 ptr); ("length", u64 len)].

(** Static, with the given pointer and length. *)
Definition smolstr_static (ptr len : Z) : SBValue :=
  smolstr [("$variant$24",
            struct [("$discr$", u64 24);
                    ("value", struct [("__0", str_ref ptr len)])])].

(** Heap, with the given pointer and length. *)
Definition smolstr_heap (ptr len : Z) : SBValue :=
  smolstr [("$variant$24", struct [("$discr$", u64 25)]);
           ("$variant$25",
            struct [("value",
              struct [("__0",
                struct [("ptr", struct [("pointer", str_ref ptr len)])])])])].

(** A heap string whose content would start beyond the last address. *)
Definition smolstr_heap_overflow : SBValue := smolstr_heap (2 ^ 64 - 8) 3.

(** A value without any child. *)
Definition bare_value : SBValue := struct [].

Definition smallvec (fields : list (string * SBValue)) : SBValue :=
  MkSBValue true 0 0 smallvec_u32_type fields.

(** Raw length 7 (heap, three elements), buffer at 8192. *)
Definition smallvec_heap3 : SBValue :=
  smallvec [("len", struct [("__0", u64 7)]);
            ("raw", struct [("heap",
               struct [("__0", struct [("pointer", u64 8192)])])])].

(** Raw length 4 (inline, two elements), first slot at 12288. *)
Definition smallvec_inline2 : SBValue :=
  smallvec [("len", struct [("__0", u64 4)]);
            ("raw", struct [("inline",
               struct [("value",
                 struct [("value", struct [("value", located 12288)])])])])].

(** Raw length 7, but no [raw] union. *)
Definition smallvec_no_raw : SBValue :=
  smallvec [("len", struct [("__0", u64 7)])].

(** The providers as [__init__] leaves them before its call of
    [update]. *)
Definition empty_smolstr (v : SBValue) : SmolStrSyntheticProvider.t :=
  SmolStrSyntheticProvider.mk v EmptyString 0 EmptyString 0 0.

Definition empty_smallvec (v : SBValue) : SmallVecSyntheticProvider.t :=
  SmallVecSyntheticProvider.mk v 0 false 0 0 0 None.

(** ** Proof tools *)

Ltac case_if :=
  match goal with
  | |- context [if ?c then _ else _] =>
      let E := fresh "E" in destruct c eqn:E
  end.

Ltac case_match :=
  match goal with
  | |- context [match ?x with _ => _ end] => destruct x eqn:?
  end.

(** Turns the boolean tests left in the context by [case_if] into
    arithmetic facts. *)
Ltac bool_hyps :=
  repeat match goal with
    | E : negb _ = true |- _ => apply negb_true_iff in E
    | E : negb _ = false |- _ => apply negb_false_iff in E
    | E : (_ && _) = true |- _ => apply andb_true_iff in E; destruct E
    | E : (_ || _) = false |- _ => apply orb_false_iff in E; destruct E
    | E : (_ <=? _) = true |- _ => apply Z.leb_le in E
    | E : (_ <=? _) = false |- _ => apply Z.leb_gt in E
    | E : (_ <? _) = true |- _ => apply Z.ltb_lt in E
    | E : (_ <? _) = false |- _ => apply Z.ltb_ge in E
    | E : (_ >=? _) = true |- _ => rewrite Z.geb_leb in E
    | E : (_ >=? _) = false |- _ => rewrite Z.geb_leb in E
    | E : (_ >? _) = true |- _ => rewrite Z.gtb_ltb in E
    | E : (_ >? _) = false |- _ => rewrite Z.gtb_ltb in E
    | E : (_ =? _) = true |- _ => apply Z.eqb_eq in E
    | E : (_ =? _) = false |- _ => apply Z.eqb_neq in E
    end.

Lemma uint64_range (z : Z) : 0 <= uint64 z < 2 ^ 64.
Proof. unfold uint64. apply Z.mod_pos_bound. reflexivity. Qed.

Lemma uint64_small (z : Z) : 0 <= z < 2 ^ 64 -> uint64 z = z.
Proof. intros Hz. unfold uint64. now apply Z.mod_small. Qed.

Lemma GetValueAsUnsigned_range (v : SBValue) :
  0 <= GetValueAsUnsigned v < 2 ^ 64.
Proof.
  destruct v as [[] z a ty cs]; simpl; [apply uint64_range | lia].
Qed.

Lemma GetLoadAddress_range (v : SBValue) : 0 <= GetLoadAddress v < 2 ^ 64.
Proof.
  destruct v as [[] z a ty cs]; cbn -[Z.pow];
    [apply uint64_range | unfold LLDB_INVALID_ADDRESS; lia].
Qed.

Lemma GetByteSize_range (ty : SBType) :
  0 <= SBTypeAPI.GetByteSize ty < 2 ^ 64.
Proof.
  destruct ty as [|[]| |]; cbn -[Z.pow]; try apply uint64_range; lia.
Qed.

Lemma shiftr_range (r : Z) :
  0 <= r < 2 ^ 64 -> 0 <= Z.shiftr r 1 < 2 ^ 63.
Proof.
  intros Hr. rewrite Z.shiftr_div_pow2 by lia. change (2 ^ 1) with 2.
  split; [apply Z.div_pos; lia|].
  apply Z.div_lt_upper_bound; [lia|].
  change (2 * 2 ^ 63) with (2 ^ 64). lia.
Qed.

(** The tag bit of a raw length is its parity. *)
Lemma tag_bit_odd (r : Z) : (Z.land r 1 =? 1) = Z.odd r.
Proof.
  change 1 with (Z.ones 1) at 1.
  rewrite Z.land_ones by lia.
  change (2 ^ 1) with 2.
  rewrite Zmod_odd. destruct (Z.odd r); reflexivity.
Qed.

Lemma read_request_in_range_spec (addr len : Z) :
  read_request_in_range addr len = true <->
  0 <= addr < 2 ^ 64 /\ 0 < len < 2 ^ 63.
Proof.
  unfold read_request_in_range.
  rewrite !andb_true_iff, Z.leb_le, !Z.ltb_lt. lia.
Qed.

(** The read of an inline buffer is always accepted. *)
Lemma inline_request_in_range (buf : SBValue) (d : Z) :
  0 < d <= 23 -> read_request_in_range (GetLoadAddress buf) d = true.
Proof.
  intros Hd. apply read_request_in_range_spec.
  split; [apply GetLoadAddress_range|]. lia.
Qed.

(** What the [try] of a child accessor makes of one constructor call. *)
Lemma try_created (c : py SBValue) :
  try_except (v <- c ;; Returned (Some v)) (Returned None) = created c.
Proof. destruct c; reflexivity. Qed.

Section SmolStrFacts.
Context `{Host}.
Import SmolStrSyntheticProvider.

Lemma store_read_returned (self : t) (process : SBProcess) (addr len : Z) :
  read_request_in_range addr len = true ->
  store_read self process addr len
  = (Returned (store_content self (memory process addr len)),
     MkSBProcess (memory process) ((addr, len) :: reads process)).
Proof. intros R. unfold store_read, ReadMemory. rewrite R. reflexivity. Qed.

Lemma store_read_raised (self : t) (process : SBProcess) (addr len : Z) :
  read_request_in_range addr len = false ->
  store_read self process addr len
  = (Raised, MkSBProcess (memory process) ((addr, len) :: reads process)).
Proof. intros R. unfold store_read, ReadMemory. rewrite R. reflexivity. Qed.

Lemma read_quoted_returned (process : SBProcess) (addr len : Z) :
  read_request_in_range addr len = true ->
  read_quoted process addr len
  = (Returned (quoted (memory process addr len)),
     MkSBProcess (memory process) ((addr, len) :: reads process)).
Proof. intros R. unfold read_quoted, ReadMemory. rewrite R. reflexivity. Qed.

Lemma read_quoted_raised (process : SBProcess) (addr len : Z) :
  read_request_in_range addr len = false ->
  read_quoted process addr len
  = (Raised, MkSBProcess (memory process) ((addr, len) :: reads process)).
Proof. intros R. unfold read_quoted, ReadMemory. rewrite R. reflexivity. Qed.

(** A read into [self.content] touches no other attribute. *)
Lemma store_content_valobj (self : t) (data : option (list byte)) :
  valobj (store_content self data) = valobj self.
Proof. unfold store_content; repeat (case_match; cbn); reflexivity. Qed.

Lemma store_content_variant_name (self : t) (data : option (list byte)) :
  variant_name (store_content self data) = variant_name self.
Proof. unfold store_content; repeat (case_match; cbn); reflexivity. Qed.

Lemma store_content_length (self : t) (data : option (list byte)) :
  length (store_content self data) = length self.
Proof. unfold store_content; repeat (case_match; cbn); reflexivity. Qed.

Lemma store_content_pointer (self : t) (data : option (list byte)) :
  pointer (store_content self data) = pointer self.
Proof. unfold store_content; repeat (case_match; cbn); reflexivity. Qed.

Lemma store_content_content_address (self : t) (data : option (list byte)) :
  content_address (store_content self data) = content_address self.
Proof. unfold store_content; repeat (case_match; cbn); reflexivity. Qed.

Lemma store_content_content (self : t) (data : option (list byte)) :
  content self = EmptyString ->
  content (store_content self data) = decoded_text data.
Proof.
  intros Hc. unfold store_content, decoded_text.
  repeat (case_match; cbn); try reflexivity; exact Hc.
Qed.

Lemma quoted_decoded_text (data : option (list byte)) :
  quoted data = dquote ++ decoded_text data ++ dquote.
Proof.
  unfold quoted, decoded_text. repeat (case_match; cbn); reflexivity.
Qed.

Ltac str_cbn :=
  cbn -[store_read read_quoted store_content quoted decoded_text Z.pow
        read_request_in_range smolstr_read_request smolstr_read_raises].

(** Case analysis along the early returns of [update], the reading
    tail kept folded. *)
Ltac update_cases :=
  unfold update, update_try, GetNonSyntheticValue; str_cbn;
  repeat (case_if; str_cbn).

(** Case analysis on whether the read request of a leaf is accepted. *)
Ltac read_cases :=
  try match goal with
      | |- context [store_read ?s ?p ?a ?l] =>
          let R := fresh "R" in
          destruct (read_request_in_range a l) eqn:R;
          [rewrite ?(store_read_returned s p a l R),
             ?(read_quoted_returned p a l R)
          |rewrite ?(store_read_raised s p a l R),
             ?(read_quoted_raised p a l R)];
          str_cbn
      end.

Ltac str_fields :=
  rewrite ?store_content_valobj, ?store_content_variant_name,
    ?store_content_length, ?store_content_pointer,
    ?store_content_content_address;
  str_cbn.

(** Without a readable discriminant the record stays empty and no
    memory is read. *)
Lemma update_no_discriminant (self : t) (process : SBProcess) :
  smolstr_discriminant (valobj self) = None ->
  update self process
  = (mk (valobj self) EmptyString 0 EmptyString 0 0, process).
Proof.
  unfold smolstr_discriminant, update, update_try, GetNonSyntheticValue.
  intros Hd. str_cbn.
  do 3 (case_if; str_cbn; [reflexivity|]).
  bool_hyps. rewrite E, E0, E1 in Hd. discriminate Hd.
Qed.

(** What one decoding does, by the read request of the value: the
    request is logged; when it is accepted the record holds its address
    and size and the decoding of what was read; when it is refused the
    handler leaves the empty record. *)
Lemma update_by_request (self : t) (process : SBProcess) :
  let r := fst (update self process) in
  valobj r = valobj self /\
  match smolstr_read_request (valobj self) with
  | None => snd (update self process) = process
  | Some (addr, len) =>
      snd (update self process)
      = MkSBProcess (memory process) ((addr, len) :: reads process) /\
      if read_request_in_range addr len
      then content_address r = addr /\ length r = len /\ len <> 0 /\
           content r = decoded_text (memory process addr len)
      else r = mk (valobj self) EmptyString 0 EmptyString 0 0
  end.
Proof.
  unfold smolstr_read_request.
  update_cases; read_cases; str_fields;
    rewrite ?store_content_content by reflexivity;
    bool_hyps; repeat split; try reflexivity; try assumption; congruence.
Qed.

(** The two readings of a refused request. *)
Lemma read_raises_true (v : SBValue) :
  smolstr_read_raises v = true ->
  exists addr len,
    smolstr_read_request v = Some (addr, len) /\
    read_request_in_range addr len = false.
Proof.
  unfold smolstr_read_raises.
  destruct (smolstr_read_request v) as [[addr len]|]; [|discriminate].
  intros Hr. exists addr, len. split; [reflexivity|].
  now apply negb_true_iff.
Qed.

Lemma read_raises_false (v : SBValue) :
  smolstr_read_raises v = false ->
  match smolstr_read_request v with
  | Some (addr, len) => read_request_in_range addr len = true
  | None => True
  end.
Proof.
  unfold smolstr_read_raises.
  destruct (smolstr_read_request v) as [[addr len]|]; [|trivial].
  apply negb_false_iff.
Qed.

(** The three handles behind a readable discriminant. *)
Lemma discriminant_valid (v : SBValue) (d : Z) :
  smolstr_discriminant v = Some d ->
  let variants :=
    GetChildMemberWithName (GetChildAtIndex v 0) "$variants$" in
  let variant24 := GetChildMemberWithName variants "$variant$24" in
  let discr_field := GetChildMemberWithName variant24 "$discr$" in
  IsValid variants = true /\ IsValid variant24 = true /\
  IsValid discr_field = true /\ d = GetValueAsUnsigned discr_field.
Proof.
  unfold smolstr_discriminant, GetNonSyntheticValue. intros Hd.
  repeat match type of Hd with
         | context [IsValid ?x] =>
             destruct (IsValid x) eqn:?; cbn in Hd; try discriminate Hd
         end.
  injection Hd as <-. repeat split; assumption.
Qed.

(** An inline value: its variant and length, and its read request, if
    it makes one, is accepted. *)
Lemma update_inline (self : t) (process : SBProcess) (d : Z) :
  smolstr_discriminant (valobj self) = Some d ->
  d <= 23 ->
  variant_name (fst (update self process)) = "Inline" /\
  length (fst (update self process)) = d /\
  smolstr_read_raises (valobj self) = false.
Proof.
  intros Hd Hle.
  destruct (discriminant_valid _ _ Hd) as (V & V0 & V1 & ->).
  pose proof (GetValueAsUnsigned_range
                (GetChildMemberWithName
                   (GetChildMemberWithName
                      (GetChildMemberWithName
                         (GetChildAtIndex (valobj self) 0) "$variants$")
                      "$variant$24") "$discr$")) as Hrange.
  apply Z.leb_le in Hle.
  unfold smolstr_read_raises, smolstr_read_request, update, update_try,
    GetNonSyntheticValue.
  str_cbn. rewrite V, V0, V1. str_cbn. rewrite Hle. str_cbn.
  apply Z.leb_le in Hle.
  repeat (case_if; str_cbn; try (repeat split; reflexivity)).
  bool_hyps.
  rewrite store_read_returned by (apply inline_request_in_range; lia).
  rewrite inline_request_in_range by lia.
  str_cbn. str_fields. repeat split; reflexivity.
Qed.

(** A static or heap value whose read request, if it makes one, is
    accepted: its variant. *)
Lemma update_static_heap (self : t) (process : SBProcess) (d : Z) :
  smolstr_discriminant (valobj self) = Some d ->
  23 < d ->
  smolstr_read_raises (valobj self) = false ->
  (d = 24 -> variant_name (fst (update self process)) = "Static") /\
  (d <> 24 -> variant_name (fst (update self process)) = "Heap").
Proof.
  intros Hd Hgt.
  destruct (discriminant_valid _ _ Hd) as (V & V0 & V1 & ->).
  apply Z.leb_gt in Hgt.
  unfold smolstr_read_raises, smolstr_read_request, update, update_try,
    GetNonSyntheticValue.
  str_cbn. rewrite V, V0, V1. str_cbn. rewrite Hgt. str_cbn.
  repeat (case_if; str_cbn); read_cases; str_fields; bool_hyps;
    intros Hr; try discriminate Hr;
    split; intros Hv; try reflexivity; congruence.
Qed.

(** A value whose read request is refused: the handler leaves the empty
    record, and the request is in the log. *)
Lemma update_raised (self : t) (process : SBProcess) :
  smolstr_read_raises (valobj self) = true ->
  fst (update self process)
  = mk (valobj self) EmptyString 0 EmptyString 0 0 /\
  exists addr len,
    smolstr_read_request (valobj self) = Some (addr, len) /\
    read_request_in_range addr len = false /\
    reads (snd (update self process)) = (addr, len) :: reads process.
Proof.
  intros Hr. destruct (read_raises_true _ Hr) as (addr & len & Hq & Hn).
  destruct (update_by_request self process) as (_ & Hu).
  rewrite Hq, Hn in Hu. destruct Hu as (Hlog & Hempty).
  split; [exact Hempty|].
  exists addr, len. rewrite Hlog. repeat split; assumption.
Qed.

(** The decoded length is an unsigned 64-bit number. *)
Lemma update_length_range (self : t) (process : SBProcess) :
  0 <= length (fst (update self process)) < 2 ^ 64.
Proof.
  update_cases; read_cases; str_fields; bool_hyps;
    try apply GetValueAsUnsigned_range; lia.
Qed.

(** The content address of a record decoded as [Heap]. *)
Lemma update_heap_address (self : t) (process : SBProcess) :
  let r := fst (update self process) in
  variant_name r = "Heap" ->
  (length r = 0 -> content_address r = 0) /\
  (length r <> 0 -> content_address r = pointer r + 16).
Proof.
  update_cases; read_cases; str_fields; bool_hyps;
    intros Hv; try discriminate Hv;
    split; intros Hl; try reflexivity; congruence.
Qed.

(** A record decoded with length 0: unless the read request was
    refused, there was none. *)
Lemma update_empty (self : t) (process : SBProcess) :
  let r := fst (update self process) in
  length r = 0 ->
  content r = EmptyString /\
  (variant_name r = "Static" -> content_address r = pointer r) /\
  (variant_name r <> "Static" -> content_address r = 0) /\
  match smolstr_read_request (valobj self) with
  | Some (addr, len) => read_request_in_range addr len = false
  | None => True
  end.
Proof.
  unfold smolstr_read_request.
  update_cases; read_cases; str_fields; bool_hyps;
    intros Hz; try contradiction;
    repeat split; intros; try reflexivity; try assumption; congruence.
Qed.

(** When a handle on the decoding path is invalid, the content stays
    empty and no read is requested. *)
Lemma update_unresolved (self : t) (process : SBProcess) :
  smolstr_fields_resolved (valobj self) = false ->
  content (fst (update self process)) = EmptyString /\
  snd (update self process) = process /\
  smolstr_read_request (valobj self) = None.
Proof.
  intros Hres. unfold smolstr_fields_resolved, GetNonSyntheticValue in Hres.
  unfold smolstr_read_request.
  update_cases; try (repeat split; reflexivity).
  all: exfalso;
    repeat match goal with
      | E : negb _ = false |- _ => apply negb_false_iff in E
      | E : (_ || _) = false |- _ => apply orb_false_iff in E; destruct E
      end;
    revert Hres;
    repeat match goal with
      | E : _ = _ |- _ => rewrite E
      end;
    cbn; discriminate.
Qed.

(** The summary is the quoted content of the record that [update]
    decodes, with the same read requests, unless the request is refused:
    then the summary raises. *)
Lemma summary_renders_update (self : t) (process : SBProcess) :
  SmolStrSummaryProvider (valobj self) process
  = (match smolstr_read_request (valobj self) with
     | Some (addr, len) =>
         if read_request_in_range addr len
         then Returned (dquote ++ content (fst (update self process))
                        ++ dquote)
         else Raised
     | None =>
         Returned (dquote ++ content (fst (update self process)) ++ dquote)
     end,
     snd (update self process)).
Proof.
  unfold SmolStrSummaryProvider, smolstr_read_request.
  update_cases; try reflexivity.
  all: read_cases; try reflexivity.
  all: rewrite ?store_content_content by reflexivity;
    rewrite ?quoted_decoded_text; try reflexivity; congruence.
Qed.

(** The shape of a decoded record, by variant. *)
Lemma update_shape (self : t) (process : SBProcess) :
  let r := fst (update self process) in
  (variant_name r = "Inline" -> length r <= 23 /\ pointer r = 0) /\
  (variant_name r = "Static" -> content_address r = pointer r) /\
  (variant_name r = EmptyString ->
   length r = 0 /\ pointer r = 0 /\ content_address r = 0 /\
   content r = EmptyString).
Proof.
  update_cases; read_cases; str_fields; bool_hyps;
    repeat split; intros; try reflexivity; try assumption; congruence.
Qed.

(** The decoded record depends on the process through its memory only,
    not through the log of earlier requests. *)
Lemma update_memory_only (self : t) (p p' : SBProcess) :
  memory p = memory p' -> fst (update self p) = fst (update self p').
Proof.
  intros Hm. update_cases; try reflexivity.
  all: match goal with
       | |- context [store_read ?s _ ?a ?l] =>
           destruct (read_request_in_range a l) eqn:R;
           [rewrite !(store_read_returned s _ a l R)
           |rewrite !(store_read_raised s _ a l R)]
       end;
    str_cbn; rewrite ?Hm; reflexivity.
Qed.

(** [update] starts from the empty attributes, whatever they were. *)
Lemma update_fresh (self self' : t) (process : SBProcess) :
  valobj self = valobj self' -> update self process = update self' process.
Proof.
  destruct self, self'. cbn. intros ->. reflexivity.
Qed.

(** Without a read request the content stays empty. *)
Lemma update_no_request (self : t) (process : SBProcess) :
  smolstr_read_request (valobj self) = None ->
  content (fst (update self process)) = EmptyString.
Proof.
  unfold smolstr_read_request.
  update_cases; read_cases; intros Hq; try reflexivity; discriminate Hq.
Qed.

(** [update] keeps the value handle and the memory. *)
Lemma update_keeps (self : t) (process : SBProcess) :
  valobj (fst (update self process)) = valobj self /\
  memory (snd (update self process)) = memory process.
Proof.
  destruct (update_by_request self process) as (Hv & Hu).
  split; [exact Hv|].
  destruct (smolstr_read_request (valobj self)) as [[addr len]|].
  - destruct Hu as (-> & _). reflexivity.
  - rewrite Hu. reflexivity.
Qed.

End SmolStrFacts.

(** ** The small string *)

Section SmolStrClaims.
Context `{Host}.
Import SmolStrSyntheticProvider.

(** C1, as the code has it.  A value whose discriminant [d] can be read
    decodes to [Inline] with length [d] when [d <= 23]; [d] is unsigned,
    so the three ranges cover every case.  When the read request of the
    decoding, if it makes one, is accepted by [ReadMemory], the value
    decodes to [Static] when [d = 24] and to [Heap] when [d >= 25], and
    the summary provider, which follows the same branch, renders the
    content of that record between quotes with the same read requests.
    When the request is refused, which takes [d >= 24], the handler of
    [update] leaves the variant unset. *)
Theorem C1_discriminant_selects_variant
  (self : t) (process : SBProcess) (d : Z) :
  smolstr_discriminant (valobj self) = Some d ->
  let r := fst (update self process) in
  0 <= d /\
  (0 <= d <= 23 -> variant_name r = "Inline" /\ length r = d) /\
  (smolstr_read_raises (valobj self) = false ->
   (d = 24 -> variant_name r = "Static") /\
   (25 <= d -> variant_name r = "Heap") /\
   SmolStrSummaryProvider (valobj self) process
   = (Returned (dquote ++ content r ++ dquote),
      snd (update self process))) /\
  (smolstr_read_raises (valobj self) = true ->
   24 <= d /\ variant_name r = EmptyString).
Proof.
  intros Hd r.
  split.
  { destruct (discriminant_valid _ _ Hd) as (_ & _ & _ & ->).
    apply GetValueAsUnsigned_range. }
  split.
  { intros [_ Hle].
    destruct (update_inline self process d Hd Hle) as (Hv & Hl & _).
    split; assumption. }
  split.
  - intros Hr.
    assert (Hsum : SmolStrSummaryProvider (valobj self) process
                   = (Returned (dquote ++ content r ++ dquote),
                      snd (update self process))).
    { rewrite (summary_renders_update self process).
      pose proof (read_raises_false _ Hr) as Hq.
      destruct (smolstr_read_request (valobj self)) as [[addr len]|];
        [rewrite Hq|]; reflexivity. }
    split; [|split; [|exact Hsum]].
    + intros H24. assert (Hgt : 23 < d) by lia.
      destruct (update_static_heap self process d Hd Hgt Hr) as (Hst & _).
      exact (Hst H24).
    + intros Hge. assert (Hgt : 23 < d) by lia.
      destruct (update_static_heap self process d Hd Hgt Hr) as (_ & Hhe).
      apply Hhe. lia.
  - intros Hr. split.
    + destruct (Z_le_gt_dec d 23) as [Hle | Hgt]; [|lia].
      destruct (update_inline self process d Hd Hle) as (_ & _ & Hn).
      rewrite Hn in Hr. discriminate Hr.
    + destruct (update_raised self process Hr) as (He & _).
      subst r. rewrite He. reflexivity.
Qed.

(** C3, as the code has it.  A record decoded as [Heap] has
    [content_address = pointer + 16] when its length is not 0; when the
    length is 0 the address is left at 0. *)
Theorem C3_heap_content_address (self : t) (process : SBProcess) :
  let r := fst (update self process) in
  variant_name r = "Heap" ->
  (length r <> 0 -> content_address r = pointer r + 16) /\
  (length r = 0 -> content_address r = 0).
Proof.
  intros r Hv.
  destruct (update_heap_address self process Hv) as (Hz & Hnz).
  split; assumption.
Qed.

(** C4, as the code has it.  A record decoded with length 0 has the
    empty content.  Its decoding requests no memory read, unless it
    requested one that [ReadMemory] refused by raising: then the request
    is in the log and the handler of [update] has left the empty record.
    The content address is 0, except for the [Static] variant, where it
    is the pointer of the string reference. *)
Theorem C4_empty_string (self : t) (process : SBProcess) :
  let r := fst (update self process) in
  length r = 0 ->
  content r = EmptyString /\
  (smolstr_read_raises (valobj self) = false ->
   smolstr_read_request (valobj self) = None /\
   reads (snd (update self process)) = reads process) /\
  (smolstr_read_raises (valobj self) = true ->
   r = mk (valobj self) EmptyString 0 EmptyString 0 0 /\
   exists addr len,
     smolstr_read_request (valobj self) = Some (addr, len) /\
     read_request_in_range addr len = false /\
     reads (snd (update self process)) = (addr, len) :: reads process) /\
  (variant_name r <> "Static" -> content_address r = 0) /\
  (variant_name r = "Static" -> content_address r = pointer r).
Proof.
  intros r Hl.
  destruct (update_empty self process Hl) as (Hc & Hs & Hn & Hq).
  split; [exact Hc|].
  split; [|split; [|split; assumption]].
  - intros Hr. pose proof (read_raises_false _ Hr) as Ha.
    destruct (update_by_request self process) as (_ & Hu).
    destruct (smolstr_read_request (valobj self)) as [[addr len]|].
    + rewrite Ha in Hq. discriminate Hq.
    + split; [reflexivity|]. rewrite Hu. reflexivity.
  - intros Hr. apply update_raised, Hr.
Qed.

(** C8.  The children of a decoded record: [variant] as text,
    [length] as an unsigned integer, [content] as an array of [length]
    characters at [content_address], or the empty placeholder when the
    address or the length is 0; and the count is 4, with [pointer] as
    child 3, exactly when the variant is [Static] or [Heap]. *)
Theorem C8_string_children (self : t) (process : SBProcess) :
  let r := fst (update self process) in
  get_child_index r "variant" = 0 /\
  get_child_index r "length" = 1 /\
  get_child_index r "content" = 2 /\
  get_child_index r "pointer" = 3 /\
  get_child_at_index r 0
  = created (CreateValueFromExpression (valobj r) "variant"
               ("(const char*)" ++ dquote ++ variant_name r ++ dquote)) /\
  get_child_at_index r 1
  = created (CreateValueFromExpression (valobj r) "length"
               ("(unsigned long long)" ++ fmt_d (length r))) /\
  get_child_at_index r 2
  = (if negb (content_address r =? 0) && negb (length r =? 0)
     then created (CreateValueFromAddress (valobj r) "content"
                     (content_address r) (SBType_array char_type (length r)))
     else created (CreateValueFromExpression (valobj r) "content"
                     ("(const char*)" ++ dquote ++ dquote))) /\
  SBTypeAPI.GetByteSize (SBType_array char_type (length r)) = length r /\
  (num_children r = 4 <->
   variant_name r = "Static" \/ variant_name r = "Heap") /\
  (num_children r = 3 <->
   ~ (variant_name r = "Static" \/ variant_name r = "Heap")) /\
  get_child_at_index r 3
  = (if is_static_or_heap r
     then created (CreateValueFromExpression (valobj r) "pointer"
                     ("(void*)0x" ++ fmt_x (pointer r)))
     else Returned None).
Proof.
  intros r.
  pose proof (update_length_range self process) as Hrange.
  fold r in Hrange.
  assert (Hsh : is_static_or_heap r = true <->
                variant_name r = "Static" \/ variant_name r = "Heap").
  { unfold is_static_or_heap. rewrite orb_true_iff, !String.eqb_eq.
    reflexivity. }
  repeat split; try reflexivity.
  - unfold get_child_at_index; cbn. apply try_created.
  - unfold get_child_at_index; cbn. apply try_created.
  - unfold get_child_at_index; cbn.
    replace (length r >? 0) with (negb (length r =? 0)).
    + destruct (negb (content_address r =? 0) && negb (length r =? 0));
        apply try_created.
    + rewrite Z.gtb_ltb.
      destruct (Z.eqb_spec (length r) 0), (Z.ltb_spec 0 (length r));
        cbn; try reflexivity; lia.
  - change (SBTypeAPI.GetByteSize (SBType_array char_type (length r)))
      with (uint64 (1 * length r)).
    rewrite Z.mul_1_l. apply uint64_small. lia.
  - unfold num_children. intros Hn. apply Hsh.
    destruct (is_static_or_heap r); [reflexivity | discriminate Hn].
  - unfold num_children. intros Hv. apply Hsh in Hv. now rewrite Hv.
  - unfold num_children. intros Hn Hv. apply Hsh in Hv.
    rewrite Hv in Hn. discriminate Hn.
  - unfold num_children. intros Hv.
    destruct (is_static_or_heap r); [|reflexivity].
    exfalso. apply Hv, Hsh. reflexivity.
  - unfold get_child_at_index; cbn.
    destruct (is_static_or_heap r); [apply try_created | reflexivity].
Qed.

(** C9.  The string provider always reports children, three or four
    of them, whatever the state of the record; after a decode that
    failed at the first step the record is the empty one and the count
    is 3. *)
Theorem C9_string_child_count (self : t) (process : SBProcess) :
  let r := fst (update self process) in
  has_children self = true /\ 3 <= num_children self <= 4 /\
  has_children r = true /\ 3 <= num_children r <= 4 /\
  (smolstr_discriminant (valobj self) = None ->
   r = mk (valobj self) EmptyString 0 EmptyString 0 0 /\
   num_children r = 3).
Proof.
  intros r.
  assert (Hn : forall s : t, 3 <= num_children s <= 4).
  { intros s. unfold num_children. destruct (is_static_or_heap s); lia. }
  repeat split; try apply Hn.
  - subst r. rewrite update_no_discriminant by assumption. reflexivity.
  - subst r. rewrite update_no_discriminant by assumption. reflexivity.
Qed.

End SmolStrClaims.

(** ** The small vector *)

Section SmallVecFacts.
Import SmallVecSyntheticProvider.

Ltac vec_cbn :=
  cbn -[Z.shiftr Z.land Z.pow readable base_address
        smallvec_storage_address smallvec_element_type].

Ltac vec_cases :=
  unfold update, GetNonSyntheticValue at 1; vec_cbn;
  repeat (case_if; vec_cbn);
  bool_hyps.

Ltac use_valid :=
  repeat match goal with
    | E : IsValid _ = true |- _ => rewrite E
    | E : IsValid _ = false |- _ => rewrite E
    | E : SBTypeAPI.IsValid _ = true |- _ => rewrite E
    | E : SBTypeAPI.IsValid _ = false |- _ => rewrite E
    end.

Lemma update_valobj (self : t) : valobj (update self) = valobj self.
Proof. vec_cases; reflexivity. Qed.

(** Without a readable length field the record stays empty. *)
Lemma update_no_length (self : t) :
  smallvec_raw_length (valobj self) = None ->
  update self = mk (valobj self) 0 false 0 0 0 None.
Proof.
  unfold smallvec_raw_length, update, GetNonSyntheticValue.
  intros Hr. cbn.
  do 2 (case_if; cbn; [reflexivity|]).
  bool_hyps. rewrite E, E0 in Hr. discriminate Hr.
Qed.

(** The two handles behind a readable length field. *)
Lemma raw_length_valid (v : SBValue) (r : Z) :
  smallvec_raw_length v = Some r ->
  IsValid (GetChildMemberWithName v "len") = true /\
  IsValid (GetChildMemberWithName (GetChildMemberWithName v "len") "__0")
  = true /\
  r = GetValueAsUnsigned
        (GetChildMemberWithName (GetChildMemberWithName v "len") "__0").
Proof.
  unfold smallvec_raw_length, GetNonSyntheticValue.
  intros Hr.
  destruct (IsValid (GetChildMemberWithName v "len"));
    cbn in Hr; [|discriminate Hr].
  destruct (IsValid
              (GetChildMemberWithName (GetChildMemberWithName v "len") "__0"));
    cbn in Hr; [|discriminate Hr].
  injection Hr as <-. repeat split.
Qed.

(** With a readable length field the storage kind is the tag bit. *)
Lemma update_is_heap (self : t) (r : Z) :
  smallvec_raw_length (valobj self) = Some r ->
  is_heap (update self) = (Z.land r 1 =? 1).
Proof.
  intros Hr. destruct (raw_length_valid _ _ Hr) as (V & V0 & ->).
  unfold update, GetNonSyntheticValue.
  cbn -[Z.shiftr Z.land]. rewrite V, V0. cbn -[Z.shiftr Z.land].
  repeat (case_if; cbn -[Z.shiftr Z.land]; try reflexivity).
Qed.

(** The invariant of a decoded record with a nonzero length. *)
Lemma update_nonempty (self : t) :
  length (update self) <> 0 ->
  element_type (update self) = Some (smallvec_element_type (valobj self)) /\
  SBTypeAPI.IsValid (smallvec_element_type (valobj self)) = true /\
  element_size (update self)
  = SBTypeAPI.GetByteSize (smallvec_element_type (valobj self)) /\
  element_size (update self) <> 0 /\
  smallvec_storage_address (valobj self) (is_heap (update self))
  = Some (base_address (update self)) /\
  base_address (update self) <> 0.
Proof.
  vec_cases; intros Hl; try (exfalso; apply Hl; reflexivity).
  all: unfold smallvec_element_type, smallvec_storage_address, base_address,
         GetNonSyntheticValue;
    cbn -[Z.shiftr Z.land];
    use_valid; cbn -[Z.shiftr Z.land];
    repeat split; try reflexivity; assumption.
Qed.

(** A readable record has the length of the raw field, shifted. *)
Lemma update_readable (self : t) :
  readable (update self) = true ->
  length (update self)
  = Z.shiftr
      (GetValueAsUnsigned
         (GetChildMemberWithName
            (GetChildMemberWithName (valobj self) "len") "__0")) 1.
Proof.
  vec_cases; unfold readable, base_address; cbn -[Z.shiftr Z.land];
    intros Hr; try discriminate Hr; try reflexivity.
  all: exfalso; bool_hyps; try congruence.
  destruct (Z.land _ 1 =? 1) in *; congruence.
Qed.

Lemma update_unreadable (self : t) :
  readable (update self) = false -> length (update self) = 0.
Proof.
  intros Hr.
  destruct (Z.eq_dec (length (update self)) 0) as [Hz | Hnz]; [exact Hz|].
  destruct (update_nonempty self Hnz) as (Ht & Hv & Hs & Hsz & _ & Hb).
  unfold readable in Hr. rewrite Ht, Hv in Hr. cbn in Hr.
  apply Z.eqb_neq in Hsz, Hb. rewrite Hsz, Hb in Hr. discriminate Hr.
Qed.

Lemma update_length_nonneg (self : t) : 0 <= length (update self).
Proof.
  vec_cases; try lia.
  all: apply Z.shiftr_nonneg, GetValueAsUnsigned_range.
Qed.

(** The vector summary, by the raw length field. *)
Lemma summary_raw_length (v : SBValue) :
  SmallVecSummaryProvider v
  = match smallvec_raw_length v with
    | Some r => "size=" ++ fmt_d (Z.shiftr r 1)
    | None => "size=?"
    end.
Proof.
  unfold SmallVecSummaryProvider, smallvec_raw_length, GetNonSyntheticValue.
  destruct (IsValid (GetChildMemberWithName v "len")); [|reflexivity].
  destruct (IsValid
              (GetChildMemberWithName (GetChildMemberWithName v "len") "__0"));
    reflexivity.
Qed.

(** When a handle on the decoding path is invalid, the record is empty. *)
Lemma update_unresolved_vec (self : t) :
  smallvec_fields_resolved (valobj self) = false ->
  length (update self) = 0.
Proof.
  intros Hres.
  destruct (Z.eq_dec (length (update self)) 0) as [Hz | Hnz]; [exact Hz|].
  exfalso. unfold smallvec_fields_resolved in Hres.
  destruct (smallvec_raw_length (valobj self)) as [r|] eqn:Hr.
  - destruct (update_nonempty self Hnz) as (_ & Hv & _ & _ & Ha & _).
    rewrite (update_is_heap self r Hr) in Ha.
    rewrite Hv, Ha in Hres. discriminate Hres.
  - rewrite (update_no_length self Hr) in Hnz. apply Hnz. reflexivity.
Qed.

(** With a readable length field, a valid element type of nonzero size
    and a storage address that resolves and is not 0, the record has the
    length of the raw field, shifted. *)
Lemma update_resolved (self : t) (r : Z) :
  smallvec_raw_length (valobj self) = Some r ->
  smallvec_storage_resolves (valobj self) r = true ->
  length (update self) = Z.shiftr r 1.
Proof.
  intros Hr Hres. destruct (raw_length_valid _ _ Hr) as (V & V0 & ->).
  unfold smallvec_storage_resolves, smallvec_storage_address,
    smallvec_element_type, GetNonSyntheticValue in Hres.
  unfold update, GetNonSyntheticValue. vec_cbn. rewrite V, V0. vec_cbn.
  repeat (case_if; vec_cbn); try reflexivity.
  all: exfalso;
    repeat match goal with
      | E : negb _ = false |- _ => apply negb_false_iff in E
      | E : negb _ = true |- _ => apply negb_true_iff in E
      | E : (_ || _) = false |- _ => apply orb_false_iff in E; destruct E
      end;
    revert Hres;
    repeat match goal with
      | E : _ = _ |- _ => rewrite E
      end;
    cbn -[Z.shiftr Z.land Z.pow];
    repeat match goal with
      | E : _ = _ |- _ => rewrite E
      end;
    cbn -[Z.shiftr Z.land Z.pow];
    rewrite ?andb_false_r;
    first [discriminate | case_if; cbn; discriminate].
Qed.

(** Otherwise the length is 0. *)
Lemma update_not_resolved (self : t) (r : Z) :
  smallvec_raw_length (valobj self) = Some r ->
  smallvec_storage_resolves (valobj self) r = false ->
  length (update self) = 0.
Proof.
  intros Hr Hres.
  destruct (Z.eq_dec (length (update self)) 0) as [Hz | Hnz]; [exact Hz|].
  exfalso.
  destruct (update_nonempty self Hnz) as (_ & Hv & Hs & Hsz & Ha & Hb).
  rewrite (update_is_heap self r Hr) in Ha.
  unfold smallvec_storage_resolves in Hres.
  rewrite Hs in Hsz. apply Z.eqb_neq in Hsz, Hb.
  rewrite Hv, Hsz, Ha, Hb in Hres. discriminate Hres.
Qed.

Section WithHost.
Context `{Host}.

(** The accessor answers [None] outside the bounds of the record. *)
Lemma get_child_out_of_range (self : t) (index : Z) :
  index < 0 \/ length self <= index ->
  get_child_at_index self index = Returned None.
Proof.
  intros Hi. unfold get_child_at_index.
  destruct (Z.ltb_spec index 0); [reflexivity|].
  destruct (Z.geb_spec index (length self)); [reflexivity|].
  lia.
Qed.

End WithHost.

End SmallVecFacts.

Section SmallVecClaims.
Context `{Host}.
Import SmallVecSyntheticProvider.

(** C2, as the code has it.  For a value whose raw length field reads
    [r]: the record is on the heap exactly when [r] is odd; the summary
    is [size=] followed by [r >> 1]; and the decoded length is [r >> 1]
    when the element type of the value is valid and of nonzero size and
    the storage address of the kind that the tag bit selects resolves
    and is not 0, and 0 otherwise. *)
Theorem C2_raw_length (self : t) (r : Z) :
  smallvec_raw_length (valobj self) = Some r ->
  (is_heap (update self) = true <-> Z.odd r = true) /\
  length (update self)
  = (if smallvec_storage_resolves (valobj self) r
     then Z.shiftr r 1 else 0) /\
  SmallVecSummaryProvider (valobj self) = "size=" ++ fmt_d (Z.shiftr r 1).
Proof.
  intros Hr. repeat split.
  - rewrite (update_is_heap self r Hr), tag_bit_odd. exact (fun E => E).
  - rewrite (update_is_heap self r Hr), tag_bit_odd. exact (fun E => E).
  - destruct (smallvec_storage_resolves (valobj self) r) eqn:R.
    + apply update_resolved; assumption.
    + apply (update_not_resolved self r); assumption.
  - rewrite summary_raw_length, Hr. reflexivity.
Qed.

(** C6.  A decoded record with a nonzero length has the declared
    element type, valid and of nonzero size, and a nonzero base address,
    which is the storage address of its storage kind; and when the
    element type is invalid, or its size is 0, or the storage address
    does not resolve or is 0, the length is 0. *)
Theorem C6_nonempty_is_readable (self : t) :
  let rec := update self in
  let v := valobj self in
  (length rec <> 0 ->
   element_type rec = Some (smallvec_element_type v) /\
   SBTypeAPI.IsValid (smallvec_element_type v) = true /\
   element_size rec = SBTypeAPI.GetByteSize (smallvec_element_type v) /\
   element_size rec <> 0 /\
   smallvec_storage_address v (is_heap rec) = Some (base_address rec) /\
   base_address rec <> 0) /\
  (SBTypeAPI.IsValid (smallvec_element_type v) = false -> length rec = 0) /\
  (SBTypeAPI.GetByteSize (smallvec_element_type v) = 0 -> length rec = 0) /\
  (smallvec_storage_address v (is_heap rec) = None -> length rec = 0) /\
  (smallvec_storage_address v (is_heap rec) = Some 0 -> length rec = 0) /\
  0 <= length rec.
Proof.
  intros rec v.
  assert (Hinv := update_nonempty self). fold rec v in Hinv.
  split; [exact Hinv|].
  repeat split; try apply update_length_nonneg; intros Hbad;
    destruct (Z.eq_dec (length rec) 0) as [Hz | Hnz]; try exact Hz;
    exfalso; destruct (Hinv Hnz) as (_ & Hv & Hs & Hsz & Ha & Hb).
  - rewrite Hv in Hbad. discriminate Hbad.
  - apply Hsz. rewrite Hs. exact Hbad.
  - rewrite Ha in Hbad. discriminate Hbad.
  - rewrite Ha in Hbad. injection Hbad as Hbad. apply Hb, Hbad.
Qed.

(** C7.  For a decoded record and an index within its length, the
    accessor hands back what the host creates for the name [[i]], the
    element type, and the address [base_address + i * element_size];
    the base address is the heap pointer for heap storage and the
    address of the first inline slot for inline storage. *)
Theorem C7_child_address (self : t) (i : Z) :
  let rec := update self in
  let ty := smallvec_element_type (valobj self) in
  0 <= i < length rec ->
  get_child_at_index rec i
  = created (CreateValueFromAddress (valobj self) ("[" ++ fmt_d i ++ "]")
               (base_address rec + i * element_size rec) ty) /\
  SBTypeAPI.IsValid ty = true /\
  element_size rec = SBTypeAPI.GetByteSize ty /\
  smallvec_storage_address (valobj self) (is_heap rec)
  = Some (base_address rec) /\
  base_address rec = (if is_heap rec then heap_ptr rec
                      else inline_data_address rec).
Proof.
  intros rec ty Hi.
  assert (Hnz : length rec <> 0) by lia.
  destruct (update_nonempty self Hnz) as (Ht & Hv & Hs & Hsz & Ha & Hb).
  fold rec ty in Ht, Hv, Hs, Hsz, Ha, Hb.
  repeat split; try assumption.
  unfold get_child_at_index. fold rec.
  destruct (Z.ltb_spec i 0); [lia|].
  destruct (Z.geb_spec i (length rec)); [lia|].
  cbn. rewrite Ht, Hv. cbn.
  apply Z.eqb_neq in Hsz. rewrite Hsz.
  unfold base_address in Hb |- *.
  pose proof (update_valobj self) as Hval. fold rec in Hval. rewrite Hval.
  destruct (is_heap rec); apply Z.eqb_neq in Hb; rewrite Hb;
    apply try_created.
Qed.

(** C10.  The vector accessor always returns, whatever the host's
    constructor does, and it returns [None] when the index is negative
    or not below the length, when the element type is missing or
    invalid, when the element size is 0, or when the base address is
    0. *)
Theorem C10_child_accessor_total (self : t) (index : Z) :
  (exists r, get_child_at_index self index = Returned r) /\
  (index < 0 -> get_child_at_index self index = Returned None) /\
  (index >= length self -> get_child_at_index self index = Returned None) /\
  (element_type self = None ->
   get_child_at_index self index = Returned None) /\
  (forall ty, element_type self = Some ty -> SBTypeAPI.IsValid ty = false ->
   get_child_at_index self index = Returned None) /\
  (element_size self = 0 -> get_child_at_index self index = Returned None) /\
  (base_address self = 0 -> get_child_at_index self index = Returned None).
Proof.
  unfold get_child_at_index, base_address.
  destruct (Z.ltb_spec index 0) as [Hneg | Hnn]; cbn.
  { repeat split; try reflexivity. now exists None. }
  destruct (Z.geb_spec index (length self)) as [Hge | Hlt]; cbn.
  { repeat split; try reflexivity. now exists None. }
  destruct (element_type self) as [ty|]; cbn.
  2:{ repeat split; try reflexivity; try lia. now exists None. }
  destruct (SBTypeAPI.IsValid ty) eqn:Hv; cbn.
  2:{ repeat split; try reflexivity; try lia. now exists None. }
  destruct (Z.eqb_spec (element_size self) 0) as [Hz | Hnz]; cbn.
  { repeat split; try reflexivity; try lia. now exists None. }
  destruct (is_heap self).
  - destruct (Z.eqb_spec (heap_ptr self) 0) as [Hp | Hp]; cbn.
    { repeat split; try reflexivity; try lia. now exists None. }
    rewrite try_created.
    repeat split; try lia; try discriminate.
    + destruct (CreateValueFromAddress _ _ _ _); cbn; eexists; reflexivity.
    + intros ty' [= <-] Hv'. rewrite Hv in Hv'. discriminate Hv'.
  - destruct (Z.eqb_spec (inline_data_address self) 0) as [Hp | Hp]; cbn.
    { repeat split; try reflexivity; try lia. now exists None. }
    rewrite try_created.
    repeat split; try lia; try discriminate.
    + destruct (CreateValueFromAddress _ _ _ _); cbn; eexists; reflexivity.
    + intros ty' [= <-] Hv'. rewrite Hv in Hv'. discriminate Hv'.
Qed.

(** C5, as the code has it.  When a handle on the decoding path of a
    string is invalid, its summary is the empty quoted string, no memory
    is read, and the provider still reports its three or four children.
    When a handle on the decoding path of a vector is invalid, the
    provider exposes no child, and the summary is [size=?] without a
    readable length field and [size=] with [r >> 1] with one. *)
Theorem C5_missing_fields (s v : SBValue) (process : SBProcess) :
  smolstr_fields_resolved s = false ->
  smallvec_fields_resolved v = false ->
  SmolStrSummaryProvider s process = (Returned (dquote ++ dquote), process) /\
  SmolStrSyntheticProvider.content
    (fst (SmolStrSyntheticProvider.init s process)) = EmptyString /\
  snd (SmolStrSyntheticProvider.init s process) = process /\
  3 <= SmolStrSyntheticProvider.num_children
         (fst (SmolStrSyntheticProvider.init s process)) <= 4 /\
  SmallVecSummaryProvider v
  = match smallvec_raw_length v with
    | Some r => "size=" ++ fmt_d (Z.shiftr r 1)
    | None => "size=?"
    end /\
  length (init v) = 0 /\
  num_children (init v) = 0 /\
  has_children (init v) = false /\
  (forall i, get_child_at_index (init v) i = Returned None).
Proof.
  intros Hs Hv.
  set (self := SmolStrSyntheticProvider.mk s EmptyString 0 EmptyString 0 0).
  destruct (update_unresolved self process Hs) as (Hc & Hp & Hq).
  assert (Hl : length (init v) = 0).
  { unfold init. apply update_unresolved_vec. exact Hv. }
  repeat split.
  - rewrite (summary_renders_update self process), Hq, Hc, Hp. reflexivity.
  - exact Hc.
  - exact Hp.
  - unfold SmolStrSyntheticProvider.num_children.
    destruct (SmolStrSyntheticProvider.is_static_or_heap _); lia.
  - unfold SmolStrSyntheticProvider.num_children.
    destruct (SmolStrSyntheticProvider.is_static_or_heap _); lia.
  - apply summary_raw_length.
  - exact Hl.
  - exact Hl.
  - unfold has_children. rewrite Hl. reflexivity.
  - intros i. apply get_child_out_of_range. rewrite Hl. lia.
Qed.

End SmallVecClaims.

(** ** The statements on the sample values *)

(** The scenarios of the inline string [hello], the heap string [abc]
    behind a 16-byte header, and the vector of raw length 7. *)
Example inline_hello_decodes :
  let r := fst (@SmolStrSyntheticProvider.init sample_host
                  smolstr_inline_hello sample_process) in
  SmolStrSyntheticProvider.variant_name r = "Inline" /\
  SmolStrSyntheticProvider.length r = 5 /\
  SmolStrSyntheticProvider.content r = "hello" /\
  SmolStrSyntheticProvider.num_children r = 3 /\
  fst (@SmolStrSummaryProvider sample_host smolstr_inline_hello sample_process)
  = Returned (dquote ++ "hello" ++ dquote).
Proof. vm_compute. repeat split; reflexivity. Qed.

Example heap_abc_decodes :
  let r := fst (@SmolStrSyntheticProvider.init sample_host
                  (smolstr_heap 4096 3) sample_process) in
  SmolStrSyntheticProvider.variant_name r = "Heap" /\
  SmolStrSyntheticProvider.content r = "abc" /\
  SmolStrSyntheticProvider.pointer r = 4096 /\
  SmolStrSyntheticProvider.num_children r = 4 /\
  reads (snd (@SmolStrSyntheticProvider.init sample_host
                (smolstr_heap 4096 3) sample_process)) = [(4112, 3)].
Proof. vm_compute. repeat split; reflexivity. Qed.

(** A heap string whose header sits eight bytes below the last address:
    the request for its content is refused, the record is reset and the
    summary raises. *)
Example heap_overflow_resets :
  fst (@SmolStrSyntheticProvider.init sample_host
         smolstr_heap_overflow sample_process)
  = empty_smolstr smolstr_heap_overflow /\
  reads (snd (@SmolStrSyntheticProvider.init sample_host
                smolstr_heap_overflow sample_process))
  = [(2 ^ 64 + 8, 3)] /\
  fst (@SmolStrSummaryProvider sample_host smolstr_heap_overflow
         sample_process) = Raised.
Proof. vm_compute. repeat split; reflexivity. Qed.

Example raising_host_child :
  @SmallVecSyntheticProvider.get_child_at_index raising_host
    (SmallVecSyntheticProvider.init smallvec_heap3) 1 = Returned None.
Proof. reflexivity. Qed.

(** C1 as stated fails on a static string with a length of [2 ^ 63] and
    on a heap string whose content would start beyond the last address:
    the discriminants are 24 and 25, the read request is refused and the
    variant is left unset. *)
Lemma C1_counterexample :
  smolstr_discriminant (smolstr_static 4096 (2 ^ 63)) = Some 24 /\
  SmolStrSyntheticProvider.variant_name
    (fst (@SmolStrSyntheticProvider.init sample_host
            (smolstr_static 4096 (2 ^ 63)) sample_process)) = EmptyString /\
  smolstr_discriminant smolstr_heap_overflow = Some 25 /\
  SmolStrSyntheticProvider.variant_name
    (fst (@SmolStrSyntheticProvider.init sample_host
            smolstr_heap_overflow sample_process)) = EmptyString.
Proof. vm_compute. repeat split; reflexivity. Qed.

(** C1, amended, on the inline string of length 5. *)
Lemma C1_witness :
  smolstr_discriminant smolstr_inline_hello = Some 5 /\
  SmolStrSyntheticProvider.variant_name
    (fst (@SmolStrSyntheticProvider.init sample_host
            smolstr_inline_hello sample_process)) = "Inline" /\
  SmolStrSyntheticProvider.length
    (fst (@SmolStrSyntheticProvider.init sample_host
            smolstr_inline_hello sample_process)) = 5.
Proof.
  split; [reflexivity|].
  destruct (@C1_discriminant_selects_variant sample_host
              (empty_smolstr smolstr_inline_hello) sample_process 5 eq_refl)
    as (_ & Hinline & _).
  apply Hinline. lia.
Defined.

(** C3 as stated fails on an empty heap string: the pointer is 4096 and
    the content address is 0, not 4112. *)
Lemma C3_counterexample :
  SmolStrSyntheticProvider.variant_name
    (fst (@SmolStrSyntheticProvider.init sample_host
            (smolstr_heap 4096 0) sample_process)) = "Heap" /\
  SmolStrSyntheticProvider.length
    (fst (@SmolStrSyntheticProvider.init sample_host
            (smolstr_heap 4096 0) sample_process)) = 0 /\
  SmolStrSyntheticProvider.pointer
    (fst (@SmolStrSyntheticProvider.init sample_host
            (smolstr_heap 4096 0) sample_process)) + 16 = 4112 /\
  SmolStrSyntheticProvider.content_address
    (fst (@SmolStrSyntheticProvider.init sample_host
            (smolstr_heap 4096 0) sample_process)) = 0.
Proof. vm_compute. repeat split; reflexivity. Qed.

(** C3, amended, on the heap string [abc]. *)
Lemma C3_witness :
  SmolStrSyntheticProvider.variant_name
    (fst (@SmolStrSyntheticProvider.init sample_host
            (smolstr_heap 4096 3) sample_process)) = "Heap" /\
  SmolStrSyntheticProvider.content_address
    (fst (@SmolStrSyntheticProvider.init sample_host
            (smolstr_heap 4096 3) sample_process))
  = SmolStrSyntheticProvider.pointer
      (fst (@SmolStrSyntheticProvider.init sample_host
              (smolstr_heap 4096 3) sample_process)) + 16.
Proof.
  split; [reflexivity|].
  apply (@C3_heap_content_address sample_host
           (empty_smolstr (smolstr_heap 4096 3)) sample_process eq_refl).
  vm_compute. discriminate.
Defined.

(** C4 as stated fails on an empty static string whose reference
    points at address 1: the content address is 1, not 0. *)
Lemma C4_counterexample :
  SmolStrSyntheticProvider.variant_name
    (fst (@SmolStrSyntheticProvider.init sample_host
            (smolstr_static 1 0) sample_process)) = "Static" /\
  SmolStrSyntheticProvider.length
    (fst (@SmolStrSyntheticProvider.init sample_host
            (smolstr_static 1 0) sample_process)) = 0 /\
  SmolStrSyntheticProvider.content_address
    (fst (@SmolStrSyntheticProvider.init sample_host
            (smolstr_static 1 0) sample_process)) = 1.
Proof. vm_compute. repeat split; reflexivity. Qed.

(** C4, amended, on the empty heap string. *)
Lemma C4_witness :
  SmolStrSyntheticProvider.length
    (fst (@SmolStrSyntheticProvider.init sample_host
            (smolstr_heap 4096 0) sample_process)) = 0 /\
  SmolStrSyntheticProvider.content
    (fst (@SmolStrSyntheticProvider.init sample_host
            (smolstr_heap 4096 0) sample_process)) = EmptyString /\
  reads (snd (@SmolStrSyntheticProvider.init sample_host
                (smolstr_heap 4096 0) sample_process)) = [] /\
  SmolStrSyntheticProvider.content_address
    (fst (@SmolStrSyntheticProvider.init sample_host
            (smolstr_heap 4096 0) sample_process)) = 0.
Proof.
  split; [reflexivity|].
  destruct (@C4_empty_string sample_host
              (empty_smolstr (smolstr_heap 4096 0)) sample_process eq_refl)
    as (Hcontent & Hreads & _ & Haddress & _).
  split; [exact Hcontent|].
  split; [exact (proj2 (Hreads eq_refl))|].
  apply Haddress. vm_compute. discriminate.
Defined.

(** C2 as stated fails on a vector of raw length 7 without its [raw]
    union: the summary says 3 and the decoded length is 0. *)
Lemma C2_counterexample :
  smallvec_raw_length smallvec_no_raw = Some 7 /\
  Z.shiftr 7 1 = 3 /\
  SmallVecSummaryProvider smallvec_no_raw = "size=3" /\
  SmallVecSyntheticProvider.length
    (SmallVecSyntheticProvider.init smallvec_no_raw) = 0.
Proof. vm_compute. repeat split; reflexivity. Qed.

(** C2, amended, on the heap vector of raw length 7. *)
Lemma C2_witness :
  smallvec_raw_length smallvec_heap3 = Some 7 /\
  SmallVecSyntheticProvider.is_heap
    (SmallVecSyntheticProvider.init smallvec_heap3) = true /\
  SmallVecSyntheticProvider.length
    (SmallVecSyntheticProvider.init smallvec_heap3) = 3 /\
  SmallVecSummaryProvider smallvec_heap3 = "size=3".
Proof.
  split; [reflexivity|].
  destruct (C2_raw_length (empty_smallvec smallvec_heap3) 7 eq_refl)
    as (Hheap & Hlength & Hsummary).
  split; [apply Hheap; reflexivity|].
  split; [exact Hlength | exact Hsummary].
Defined.

(** C7 on the third element of the heap vector: four bytes each, from
    8192. *)
Lemma C7_witness :
  0 <= 2 < SmallVecSyntheticProvider.length
             (SmallVecSyntheticProvider.init smallvec_heap3) /\
  @SmallVecSyntheticProvider.get_child_at_index sample_host
    (SmallVecSyntheticProvider.init smallvec_heap3) 2
  = Returned (Some (MkSBValue true 0 (8192 + 2 * 4) u32_type [])).
Proof.
  assert (Hi : 0 <= 2 < SmallVecSyntheticProvider.length
                          (SmallVecSyntheticProvider.init smallvec_heap3)).
  { vm_compute. split; [discriminate | reflexivity]. }
  split; [exact Hi|].
  exact (proj1 (@C7_child_address sample_host
                  (empty_smallvec smallvec_heap3) 2 Hi)).
Defined.

(** C5 as stated fails on a value without any child: the string
    provider reports three children, not none, and the vector summary is
    [size=?]; and on the vector without its [raw] union the summary is
    [size=3]. *)
Lemma C5_counterexample :
  smolstr_fields_resolved bare_value = false /\
  SmolStrSyntheticProvider.num_children
    (fst (@SmolStrSyntheticProvider.init sample_host bare_value
            sample_process)) = 3 /\
  smallvec_fields_resolved bare_value = false /\
  SmallVecSummaryProvider bare_value = "size=?" /\
  smallvec_fields_resolved smallvec_no_raw = false /\
  SmallVecSummaryProvider smallvec_no_raw = "size=3".
Proof. vm_compute. repeat split; reflexivity. Qed.

(** C5, amended, on the value without any child and the vector without
    its [raw] union. *)
Lemma C5_witness :
  smolstr_fields_resolved bare_value = false /\
  smallvec_fields_resolved smallvec_no_raw = false /\
  @SmolStrSummaryProvider sample_host bare_value sample_process
  = (Returned (dquote ++ dquote), sample_process) /\
  SmallVecSummaryProvider smallvec_no_raw = "size=3" /\
  SmallVecSyntheticProvider.num_children
    (SmallVecSyntheticProvider.init smallvec_no_raw) = 0.
Proof.
  split; [reflexivity|].
  split; [reflexivity|].
  destruct (@C5_missing_fields sample_host bare_value smallvec_no_raw
              sample_process eq_refl eq_refl)
    as (Hsummary & _ & _ & _ & Hsize & _ & Hchildren & _).
  split; [exact Hsummary|].
  split; [exact Hsize | exact Hchildren].
Defined.

(** ** Further properties of the string provider *)

Section SmolStrMore.
Context `{Host}.
Import SmolStrSyntheticProvider.

(** X1.  For every value, the summary provider makes the read requests
    of the synthetic provider, in the same order.  When the request, if
    there is one, is accepted, the summary is the content that the
    synthetic provider decodes, between quotes.  When it is refused, the
    summary provider raises, while the synthetic provider is left with
    the empty record. *)
Theorem smolstr_summary_agrees (v : SBValue) (process : SBProcess) :
  snd (SmolStrSummaryProvider v process) = snd (init v process) /\
  (smolstr_read_raises v = false ->
   fst (SmolStrSummaryProvider v process)
   = Returned (dquote ++ content (fst (init v process)) ++ dquote)) /\
  (smolstr_read_raises v = true ->
   fst (SmolStrSummaryProvider v process) = Raised /\
   fst (init v process) = mk v EmptyString 0 EmptyString 0 0).
Proof.
  unfold init.
  set (self := mk v EmptyString 0 EmptyString 0 0).
  rewrite (summary_renders_update self process).
  change (valobj self) with v.
  split; [reflexivity|]. split; intros Hr.
  - pose proof (read_raises_false _ Hr) as Hq. cbn.
    destruct (smolstr_read_request v) as [[addr len]|];
      [rewrite Hq|]; reflexivity.
  - destruct (update_raised self process Hr) as (He & _).
    destruct (read_raises_true _ Hr) as (addr & len & Hq & Hn).
    cbn. rewrite Hq, Hn. split; [reflexivity | exact He].
Qed.

(** X2.  A decoding makes at most one read request, and the request is
    logged.  Without a request the content is empty.  When the request
    is accepted, it is for [length] bytes at [content_address], the
    length is not 0, and the content is the decoding of the bytes read,
    or empty when the read failed or the decoding raised.  When the
    request is refused, the record is the empty one. *)
Theorem smolstr_update_reads_once (self : t) (process : SBProcess) :
  let r := fst (update self process) in
  let process' := snd (update self process) in
  (smolstr_read_request (valobj self) = None /\
   reads process' = reads process /\ content r = EmptyString) \/
  (exists addr len,
     smolstr_read_request (valobj self) = Some (addr, len) /\
     reads process' = (addr, len) :: reads process /\
     ((read_request_in_range addr len = true /\
       content_address r = addr /\ length r = len /\ len <> 0 /\
       content r = decoded_text (memory process addr len)) \/
      (read_request_in_range addr len = false /\
       r = mk (valobj self) EmptyString 0 EmptyString 0 0))).
Proof.
  intros r process'.
  destruct (update_by_request self process) as (_ & Hu).
  pose proof (update_no_request self process) as Hn.
  fold r process' in Hu, Hn.
  destruct (smolstr_read_request (valobj self)) as [[addr len]|].
  - right. exists addr, len. destruct Hu as (Hlog & Hu).
    split; [reflexivity|]. split; [rewrite Hlog; reflexivity|].
    destruct (read_request_in_range addr len).
    + left. split; [reflexivity | exact Hu].
    + right. split; [reflexivity | exact Hu].
  - left. split; [reflexivity|]. split; [rewrite Hu; reflexivity|].
    apply Hn. reflexivity.
Qed.

(** X3.  The variant of a decoded record is unset, [Inline], [Static] or
    [Heap], and unset exactly when the discriminant cannot be read or
    the read request is refused; an unset record is empty, an inline one
    has a length of at most 23 and no pointer, and a static one has its
    content at its pointer. *)
Theorem smolstr_update_invariants (self : t) (process : SBProcess) :
  let r := fst (update self process) in
  (variant_name r = EmptyString \/ variant_name r = "Inline" \/
   variant_name r = "Static" \/ variant_name r = "Heap") /\
  (variant_name r = EmptyString <->
   smolstr_discriminant (valobj self) = None \/
   smolstr_read_raises (valobj self) = true) /\
  (variant_name r = EmptyString ->
   length r = 0 /\ pointer r = 0 /\ content_address r = 0 /\
   content r = EmptyString) /\
  (variant_name r = "Inline" -> 0 <= length r <= 23 /\ pointer r = 0) /\
  (variant_name r = "Static" -> content_address r = pointer r).
Proof.
  intros r.
  destruct (update_shape self process) as (Hi & Hs & He).
  fold r in Hi, Hs, He.
  pose proof (update_length_range self process) as Hrange. fold r in Hrange.
  assert (Hv : ((smolstr_discriminant (valobj self) = None \/
                 smolstr_read_raises (valobj self) = true) /\
                variant_name r = EmptyString) \/
               (~ (smolstr_discriminant (valobj self) = None \/
                   smolstr_read_raises (valobj self) = true) /\
                (variant_name r = "Inline" \/ variant_name r = "Static" \/
                 variant_name r = "Heap"))).
  { destruct (smolstr_discriminant (valobj self)) as [d|] eqn:Hd.
    - destruct (smolstr_read_raises (valobj self)) eqn:Hr.
      + left. split; [right; reflexivity|].
        destruct (update_raised self process Hr) as (Hempty & _).
        subst r. rewrite Hempty. reflexivity.
      + right. split; [intros [E | E]; discriminate E|].
        destruct (Z_le_gt_dec d 23) as [Hle | Hgt].
        * destruct (update_inline self process d Hd Hle) as (Hin & _).
          left. exact Hin.
        * assert (Hlt : 23 < d) by lia.
          destruct (update_static_heap self process d Hd Hlt Hr)
            as (Hst & Hhe).
          destruct (Z.eq_dec d 24) as [H24 | Hn24];
            [right; left; exact (Hst H24) | right; right; exact (Hhe Hn24)].
    - left. split; [left; reflexivity|].
      subst r. rewrite (update_no_discriminant self process Hd). reflexivity. }
  repeat split.
  - destruct Hv as [[_ Hv] | [_ Hv]]; [left; exact Hv | right; exact Hv].
  - intros Hempty. destruct Hv as [[Hnone _] | [_ Hv]]; [exact Hnone|].
    rewrite Hempty in Hv.
    destruct Hv as [Hv | [Hv | Hv]]; discriminate Hv.
  - intros Hnone. destruct Hv as [[_ Hv] | [Hsome _]];
      [exact Hv | contradiction].
  - apply He; assumption.
  - apply He; assumption.
  - apply He; assumption.
  - apply He; assumption.
  - apply Hrange.
  - apply Hi; assumption.
  - apply Hi; assumption.
  - exact Hs.
Qed.

(** X4.  A decoding keeps the value handle and starts from the empty
    attributes, so decoding again, against the same memory, gives the
    same record. *)
Theorem smolstr_update_idempotent (self : t) (process : SBProcess) :
  let r := fst (update self process) in
  let process' := snd (update self process) in
  valobj r = valobj self /\
  fst (update r process') = r /\
  fst (update r process) = r.
Proof.
  intros r process'.
  destruct (update_keeps self process) as (Hv & Hm).
  fold r in Hv. fold process' in Hm.
  split; [exact Hv|].
  assert (Hagain : fst (update r process) = r).
  { rewrite (update_fresh r self process Hv). reflexivity. }
  split; [|exact Hagain].
  rewrite (update_memory_only r process' process Hm). exact Hagain.
Qed.

(** X5.  The string accessor answers [None] for every index below 0
    or not below the child count, whatever the host does; and on a host
    whose constructors do not raise it answers with a value for every
    index in between. *)
Theorem smolstr_children_in_range (self : t) (index : Z) :
  (index < 0 \/ num_children self <= index ->
   get_child_at_index self index = Returned None) /\
  (host_never_raises ->
   0 <= index < num_children self ->
   exists v, get_child_at_index self index = Returned (Some v)).
Proof.
  assert (Hcreated : host_never_raises -> forall c,
            (exists n e, c = CreateValueFromExpression (valobj self) n e) \/
            (exists n a ty,
               c = CreateValueFromAddress (valobj self) n a ty) ->
            exists v, created c = Returned (Some v)).
  { intros [He Ha] c [(n & e & ->) | (n & a & ty & ->)].
    - specialize (He (valobj self) n e).
      destruct (CreateValueFromExpression _ _ _) as [v|];
        [exists v; reflexivity | contradiction].
    - specialize (Ha (valobj self) n a ty).
      destruct (CreateValueFromAddress _ _ _ _) as [v|];
        [exists v; reflexivity | contradiction]. }
  unfold get_child_at_index, num_children.
  destruct (Z.ltb_spec index 0) as [Hneg | Hnn].
  { split; [reflexivity | intros _ Hr; lia]. }
  destruct (Z.eqb_spec index 0) as [-> | H0].
  { rewrite try_created. split.
    - destruct (is_static_or_heap self); lia.
    - intros Hh _. apply Hcreated; [exact Hh|]. left. eauto. }
  destruct (Z.eqb_spec index 1) as [-> | H1].
  { rewrite try_created. split.
    - destruct (is_static_or_heap self); lia.
    - intros Hh _. apply Hcreated; [exact Hh|]. left. eauto. }
  destruct (Z.eqb_spec index 2) as [-> | H2].
  { split.
    - destruct (is_static_or_heap self); lia.
    - intros Hh _.
      destruct (negb (content_address self =? 0) && (length self >? 0));
        rewrite try_created; (apply Hcreated; [exact Hh|]);
        [right | left]; eauto. }
  destruct (Z.eqb_spec index 3) as [-> | H3]; cbn.
  { destruct (is_static_or_heap self); cbn.
    - rewrite try_created. split; [lia|].
      intros Hh _. apply Hcreated; [exact Hh|]. left. eauto.
    - split; [reflexivity | lia]. }
  split; [reflexivity|].
  destruct (is_static_or_heap self); lia.
Qed.

(** X6.  Looking a child up by name: the index is -1 exactly for a
    name other than [variant], [length], [content] and [pointer], and
    the child at the index of a name is either [None] or what the host
    creates under that very name. *)
Theorem smolstr_child_by_name (self : t) (name : string) :
  let index := get_child_index self name in
  (index = -1 <->
   name <> "variant" /\ name <> "length" /\ name <> "content" /\
   name <> "pointer") /\
  (get_child_at_index self index = Returned None \/
   (exists expr,
      get_child_at_index self index
      = created (CreateValueFromExpression (valobj self) name expr)) \/
   (exists addr ty,
      get_child_at_index self index
      = created (CreateValueFromAddress (valobj self) name addr ty))).
Proof.
  unfold get_child_index.
  destruct (String.eqb_spec name "variant") as [-> | Nv].
  { split; [split; [discriminate | intros (E & _); contradiction]|].
    right; left. unfold get_child_at_index; cbn. rewrite try_created. eauto. }
  destruct (String.eqb_spec name "length") as [-> | Nl].
  { split; [split; [discriminate | intros (_ & E & _); contradiction]|].
    right; left. unfold get_child_at_index; cbn. rewrite try_created. eauto. }
  destruct (String.eqb_spec name "content") as [-> | Nc].
  { split; [split; [discriminate | intros (_ & _ & E & _); contradiction]|].
    unfold get_child_at_index; cbn.
    destruct (negb (content_address self =? 0) && (length self >? 0));
      rewrite try_created; right; [right | left]; eauto. }
  destruct (String.eqb_spec name "pointer") as [-> | Np].
  { split; [split; [discriminate | intros (_ & _ & _ & E); contradiction]|].
    unfold get_child_at_index; cbn.
    destruct (is_static_or_heap self); cbn;
      [rewrite try_created; right; left; eauto | left; reflexivity]. }
  split; [split; [intros _; repeat split; assumption | reflexivity]|].
  left. reflexivity.
Qed.

End SmolStrMore.

(** ** Further properties of the vector provider *)

Section StripFacts.

Lemma lstrip_app (chars s t : string) :
  lstrip chars t = t -> lstrip chars (s ++ t) = lstrip chars s ++ t.
Proof.
  intros Ht. induction s as [|c s IH]; cbn.
  - exact Ht.
  - destruct (char_in c chars); [exact IH | reflexivity].
Qed.

Lemma rstrip_app (chars s t : string) :
  rstrip chars t = EmptyString -> rstrip chars (s ++ t) = rstrip chars s.
Proof.
  intros Ht. induction s as [|c s IH]; cbn.
  - exact Ht.
  - rewrite IH. reflexivity.
Qed.

Lemma lstrip_free (chars s : string) :
  free_of chars s = true -> lstrip chars s = s.
Proof.
  destruct s as [|c s]; cbn; [reflexivity|].
  destruct (char_in c chars); [discriminate | reflexivity].
Qed.

Lemma rstrip_free (chars s : string) :
  free_of chars s = true -> rstrip chars s = s.
Proof.
  induction s as [|c s IH]; cbn; [reflexivity|].
  destruct (char_in c chars); cbn; [discriminate|].
  intros Hs. rewrite (IH Hs). destruct s; reflexivity.
Qed.

(** A decimal rendering holds digits and at most a sign. *)
Lemma string_of_uint_free (chars : string) (u : Decimal.uint) :
  free_of chars "0123456789" = true ->
  free_of chars (DecimalString.NilEmpty.string_of_uint u) = true.
Proof.
  cbn. rewrite !andb_true_iff.
  intros (H0 & H1 & H2 & H3 & H4 & H5 & H6 & H7 & H8 & H9 & _).
  induction u; cbn; rewrite ?IHu, ?andb_true_r; try assumption; reflexivity.
Qed.

Lemma fmt_d_free (chars : string) (i : Z) :
  free_of chars "-0123456789" = true -> free_of chars (fmt_d i) = true.
Proof.
  cbn [free_of]. rewrite andb_true_iff. intros (Hminus & Hdigits).
  assert (Hu : forall u,
             free_of chars (DecimalString.NilZero.string_of_uint u) = true).
  { intros u. unfold DecimalString.NilZero.string_of_uint.
    destruct u; try apply (string_of_uint_free chars _ Hdigits).
    revert Hdigits. cbn. rewrite !andb_true_iff. intros (H0 & _).
    split; [exact H0 | reflexivity]. }
  unfold fmt_d, DecimalString.NilZero.string_of_int.
  destruct (Z.to_int i) as [u | u]; [apply Hu|].
  cbn [free_of]. rewrite Hminus. apply Hu.
Qed.

End StripFacts.

Section SmallVecMore.
Context `{Host} `{Builtins}.
Import SmallVecSyntheticProvider.

Ltac vec_cbn :=
  cbn -[Z.shiftr Z.land Z.pow readable base_address
        smallvec_storage_address smallvec_element_type].

Ltac vec_cases :=
  unfold update, GetNonSyntheticValue at 1; vec_cbn;
  repeat (case_if; vec_cbn);
  bool_hyps.

(** [update] starts from the empty attributes, whatever they were. *)
Lemma update_fresh_vec (self self' : t) :
  valobj self = valobj self' -> update self = update self'.
Proof.
  destruct self, self'. cbn. intros ->. reflexivity.
Qed.

(** The child of a decoded record at an index within its length. *)
Lemma get_child_in_range (self : t) (i : Z) :
  0 <= i < length (update self) ->
  get_child_at_index (update self) i
  = created (CreateValueFromAddress (valobj self) ("[" ++ fmt_d i ++ "]")
               (base_address (update self) + i * element_size (update self))
               (smallvec_element_type (valobj self))).
Proof.
  intros Hi.
  assert (Hnz : length (update self) <> 0) by lia.
  destruct (update_nonempty self Hnz) as (Ht & Hv & Hs & Hsz & Ha & Hb).
  unfold get_child_at_index.
  destruct (Z.ltb_spec i 0); [lia|].
  destruct (Z.geb_spec i (length (update self))); [lia|].
  cbn. rewrite Ht, Hv. cbn.
  apply Z.eqb_neq in Hsz. rewrite Hsz.
  unfold base_address in Hb |- *. rewrite (update_valobj self).
  destruct (is_heap (update self)); apply Z.eqb_neq in Hb; rewrite Hb;
    apply try_created.
Qed.

(** X7.  A vector decoding keeps the value handle and starts from the
    empty attributes, so decoding again gives the same record. *)
Theorem smallvec_update_idempotent (self : t) :
  valobj (update self) = valobj self /\
  update (update self) = update self.
Proof.
  split; [apply update_valobj|].
  apply update_fresh_vec, update_valobj.
Qed.

(** X8.  In a decoded vector record only the address of its storage
    kind is ever set: the inline address is 0 on the heap and the heap
    pointer is 0 inline; the length is below 2^63, the element size and
    both addresses are unsigned 64-bit numbers. *)
Theorem smallvec_update_invariants (self : t) :
  let rec := update self in
  (is_heap rec = true -> inline_data_address rec = 0) /\
  (is_heap rec = false -> heap_ptr rec = 0) /\
  0 <= length rec < 2 ^ 63 /\
  0 <= element_size rec < 2 ^ 64 /\
  0 <= heap_ptr rec < 2 ^ 64 /\
  0 <= inline_data_address rec < 2 ^ 64.
Proof.
  pose proof (shiftr_range _
                (GetValueAsUnsigned_range
                   (GetChildMemberWithName
                      (GetChildMemberWithName (valobj self) "len") "__0")))
    as Hlen.
  vec_cases; repeat split; intros;
    try reflexivity; try discriminate; try lia;
    try apply Hlen; try apply GetByteSize_range;
    try apply GetValueAsUnsigned_range; try apply GetLoadAddress_range.
Qed.

(** X9.  The children of a decoded vector lie one element size apart
    from the base address on, and the element size is positive, so the
    views of two different indices do not overlap. *)
Theorem smallvec_children_disjoint (self : t) (i j : Z) :
  let rec := update self in
  let ty := smallvec_element_type (valobj self) in
  let address k := base_address rec + k * SBTypeAPI.GetByteSize ty in
  0 <= i -> i < j -> j < length rec ->
  get_child_at_index rec i
  = created (CreateValueFromAddress (valobj self) ("[" ++ fmt_d i ++ "]")
               (address i) ty) /\
  get_child_at_index rec j
  = created (CreateValueFromAddress (valobj self) ("[" ++ fmt_d j ++ "]")
               (address j) ty) /\
  0 < SBTypeAPI.GetByteSize ty /\
  address i + SBTypeAPI.GetByteSize ty <= address j.
Proof.
  intros rec ty address Hi Hij Hj.
  assert (Hnz : length rec <> 0) by lia.
  destruct (update_nonempty self Hnz) as (_ & _ & Hs & Hsz & _ & _).
  fold rec ty in Hs, Hsz.
  pose proof (GetByteSize_range ty) as Hrange.
  assert (Hpos : 0 < SBTypeAPI.GetByteSize ty) by (rewrite Hs in Hsz; lia).
  unfold address. rewrite <- Hs.
  repeat split.
  - apply get_child_in_range. fold rec. lia.
  - apply get_child_in_range. fold rec. lia.
  - rewrite Hs. exact Hpos.
  - rewrite Hs. nia.
Qed.

(** X10.  On a host whose constructors do not raise, a decoded vector
    has a child at an index exactly when the index is at least 0 and
    below the child count. *)
Theorem smallvec_children_in_range (self : t) (i : Z) :
  host_never_raises ->
  (get_child_at_index (update self) i = Returned None <->
   i < 0 \/ num_children (update self) <= i).
Proof.
  intros [_ Ha]. unfold num_children. split.
  - intros Hnone.
    destruct (Z_lt_ge_dec i 0) as [Hneg | Hnn]; [left; exact Hneg|].
    destruct (Z_lt_ge_dec i (length (update self))) as [Hlt | Hge];
      [|right; lia].
    exfalso. rewrite get_child_in_range in Hnone by lia.
    specialize (Ha (valobj self) ("[" ++ fmt_d i ++ "]")
                  (base_address (update self)
                   + i * element_size (update self))
                  (smallvec_element_type (valobj self))).
    destruct (CreateValueFromAddress _ _ _ _);
      [discriminate Hnone | contradiction].
  - apply get_child_out_of_range.
Qed.

(** X11.  The name that the accessor gives to child [i] leads back to
    [i]: when [int] reads the decimal rendering of [i] as [i], the index
    of the name [[i]] is [i]. *)
Theorem smallvec_name_round_trip (self : t) (i : Z) :
  py_int (fmt_d i) = Returned i ->
  get_child_index self ("[" ++ fmt_d i ++ "]") = Returned i.
Proof.
  intros Hint. unfold get_child_index.
  change ("[" ++ fmt_d i ++ "]") with (String "[" (fmt_d i ++ "]")).
  change (lstrip "[" (String "[" (fmt_d i ++ "]")))
    with (lstrip "[" (fmt_d i ++ "]")).
  rewrite lstrip_app by reflexivity.
  rewrite (lstrip_free "[" (fmt_d i)) by (apply fmt_d_free; reflexivity).
  rewrite rstrip_app by reflexivity.
  rewrite (rstrip_free "]" (fmt_d i)) by (apply fmt_d_free; reflexivity).
  rewrite Hint. reflexivity.
Qed.

(** X12.  The index of a name does not change when an opening
    bracket is put in front of the name or a closing bracket after it;
    the lookup always returns, with -1 when [int] raises on what is left
    of the name. *)
Theorem smallvec_name_brackets (self : t) (name : string) :
  get_child_index self ("[" ++ name) = get_child_index self name /\
  get_child_index self (name ++ "]") = get_child_index self name /\
  (exists n, get_child_index self name = Returned n) /\
  (py_int (rstrip "]" (lstrip "[" name)) = Raised ->
   get_child_index self name = Returned (-1)).
Proof.
  unfold get_child_index. repeat split.
  - rewrite lstrip_app by reflexivity.
    rewrite rstrip_app by reflexivity. reflexivity.
  - destruct (py_int _); cbn; eexists; reflexivity.
  - intros ->. reflexivity.
Qed.

End SmallVecMore.

(** ** The further properties on the sample values *)

(** X9 on the first and third element of the heap vector. *)
Lemma smallvec_children_disjoint_witness :
  0 <= 0 /\ 0 < 2 /\
  2 < SmallVecSyntheticProvider.length
        (SmallVecSyntheticProvider.init smallvec_heap3) /\
  @SmallVecSyntheticProvider.get_child_at_index sample_host
    (SmallVecSyntheticProvider.init smallvec_heap3) 0
  = Returned (Some (MkSBValue true 0 8192 u32_type [])) /\
  @SmallVecSyntheticProvider.get_child_at_index sample_host
    (SmallVecSyntheticProvider.init smallvec_heap3) 2
  = Returned (Some (MkSBValue true 0 8200 u32_type [])) /\
  8192 + 4 <= 8200.
Proof.
  assert (Hj : 2 < SmallVecSyntheticProvider.length
                     (SmallVecSyntheticProvider.init smallvec_heap3))
    by reflexivity.
  destruct (@smallvec_children_disjoint sample_host
              (empty_smallvec smallvec_heap3) 0 2
              (Z.le_refl 0) eq_refl Hj)
    as (Hfirst & Hthird & _ & Hapart).
  split; [apply Z.le_refl|].
  split; [reflexivity|].
  split; [exact Hj|].
  split; [exact Hfirst|].
  split; [exact Hthird | exact Hapart].
Defined.

(** X10 on the heap vector of three elements, at index 3. *)
Lemma smallvec_children_in_range_witness :
  @host_never_raises sample_host /\
  (@SmallVecSyntheticProvider.get_child_at_index sample_host
     (SmallVecSyntheticProvider.init smallvec_heap3) 3 = Returned None <->
   3 < 0 \/
   SmallVecSyntheticProvider.num_children
     (SmallVecSyntheticProvider.init smallvec_heap3) <= 3).
Proof.
  assert (Hhost : @host_never_raises sample_host).
  { split; intros; discriminate. }
  split; [exact Hhost|].
  exact (@smallvec_children_in_range sample_host
           (empty_smallvec smallvec_heap3) 3 Hhost).
Defined.

(** X11 on the name of the third element. *)
Lemma smallvec_name_round_trip_witness :
  @py_int sample_builtins (fmt_d 2) = Returned 2 /\
  @SmallVecSyntheticProvider.get_child_index sample_builtins
    (SmallVecSyntheticProvider.init smallvec_heap3) "[2]" = Returned 2.
Proof.
  split; [reflexivity|].
  exact (@smallvec_name_round_trip sample_builtins
           (SmallVecSyntheticProvider.init smallvec_heap3) 2 eq_refl).
Defined.
